(** * Opine: response finalisation and static file serving

  A shallow embedding of [src/response.ts] (class [Response]) and of
  [src/middleware/serveStatic.ts], with the properties of the
  specification stated over it.

  JavaScript strings are sequences of UTF-16 code units ([list N]); the
  Web [Headers] object is a finite map keyed by lower-cased field names;
  a method of [Response] is a computation over the response object that
  either returns or throws.  Calls that leave the two files
  ([req.respond], the configured ETag function, [next], the handlers given
  to [format], [Deno.stat], [Deno.readFile]) are recorded, in order, in a
  log carried by the response. *)

From Stdlib Require Import ZArith NArith List String Ascii Bool Lia.
From stdpp Require Import base option countable list gmap fin_maps pretty.

Local Open Scope Z_scope.
Set Warnings "-register-all".

(** ** JavaScript strings *)

Module JsString.

Definition jstring : Type := list N.

(** A literal: the code units of an ASCII text. *)
Definition js (s : string) : jstring :=
  List.map N_of_ascii (list_ascii_of_string s).

(** [s.length !== 0], which is also the truthiness of a string. *)
Definition nonempty (s : jstring) : bool :=
  match s with
  | [] => false
  | _ :: _ => true
  end.

Definition eqb (a b : jstring) : bool := bool_decide (a = b).

(** [String.prototype.toLowerCase] on the ASCII range, which is where
    header field names live. *)
Definition lower_unit (c : N) : N :=
  if (65 <=? c)%N && (c <=? 90)%N then (c + 32)%N else c.

Definition toLowerCase (s : jstring) : jstring := List.map lower_unit s.

(** [s.substr(-1)]: the last code unit as a string, empty for the empty
    string. *)
Definition substr_last (s : jstring) : jstring :=
  match List.rev s with
  | [] => []
  | c :: _ => [c]
  end.

(** [s.endsWith(t)] and [s.startsWith(t)]. *)
Fixpoint startsWith (s t : jstring) : bool :=
  match t, s with
  | [], _ => true
  | _ :: _, [] => false
  | c :: t', d :: s' => (c =? d)%N && startsWith s' t'
  end.

Definition endsWith (s t : jstring) : bool :=
  startsWith (List.rev s) (List.rev t).




End JsString.
Import JsString.

(** ** The Web [Headers] collaborator

  [Headers] normalises every field name to lower case in each of its
  operations; [get] answers [null] for a missing field.  Its refusal of
  names that are not tokens and its trimming of values are left out:
  the operations below are the ones of [Headers] on the names of
  [legal_name] and the values of [plain_value], which it stores as
  given. *)

Module Headers.

Abbreviation t := (gmap jstring jstring).

Definition get (h : t) (name : jstring) : option jstring :=
  h !! toLowerCase name.

Definition set (h : t) (name value : jstring) : t :=
  <[toLowerCase name := value]> h.

Definition delete (h : t) (name : jstring) : t :=
  base.delete (toLowerCase name) h.

Definition append (h : t) (name value : jstring) : t :=
  match h !! toLowerCase name with
  | Some old => <[toLowerCase name := old ++ js ", " ++ value]> h
  | None => <[toLowerCase name := value]> h
  end.

(** A character of an HTTP token: a letter, a digit, or one of
    [!#$%&'*+-.^_`|~]. *)
Definition token_unit (c : N) : bool :=
  ((48 <=? c) && (c <=? 57) || (65 <=? c) && (c <=? 90)
   || (97 <=? c) && (c <=? 122)
   || (c =? 33) || (c =? 35) || (c =? 36) || (c =? 37) || (c =? 38)
   || (c =? 39) || (c =? 42) || (c =? 43) || (c =? 45) || (c =? 46)
   || (c =? 94) || (c =? 95) || (c =? 96) || (c =? 124) || (c =? 126))%N.

(** A field name [Headers] accepts: a non-empty token.  On any other
    name its operations throw a [TypeError]. *)
Definition legal_name (name : jstring) : bool :=
  nonempty name && forallb token_unit name.

(** A space or a tab. *)
Definition blank (c : N) : bool := ((c =? 32) || (c =? 9))%N.

(** A printable ASCII character, a space or a tab. *)
Definition printable (c : N) : bool :=
  ((32 <=? c) && (c <=? 126) || (c =? 9))%N.

(** A value [Headers] stores as given: printable ASCII that neither
    starts nor ends with a blank, which is what its trimming would
    strip. *)
Definition plain_value (value : jstring) : bool :=
  forallb printable value
  && match value with
     | c :: _ => negb (blank c)
     | [] => true
     end
  && match List.rev value with
     | c :: _ => negb (blank c)
     | [] => true
     end.

End Headers.

(** ** Values that cross the response API *)

(** [DenoResponseBody = string | Uint8Array | Deno.Reader]. *)
Inductive DenoResponseBody : Type :=
| BodyString (s : jstring)
| BodyBytes (b : list N)
| BodyReader (id : N).

(** A plain JSON tree: what a non-binary object or array handed to [send]
    or [json] amounts to.  Numbers are the integers among the doubles. *)
Inductive Json : Type :=
| JNull
| JBool (b : bool)
| JNumber (n : Z)
| JString (s : jstring)
| JArray (items : list Json)
| JObject (fields : list (jstring * Json)).

(** [ResponseBody]: everything [send], [json] and [jsonp] accept.
    [RObject] is a non-null object that is neither a [Uint8Array] nor has
    a [read] method. *)
Inductive ResponseBody : Type :=
| RString (s : jstring)
| RBoolean (b : bool)
| RNumber (n : Z)
| RNull
| RUint8Array (b : list N)
| RReader (id : N)
| RObject (o : Json).

(** [Deno.FileInfo], with [mtime] already rendered by [toUTCString]. *)
Record FileInfo : Type := mkFileInfo {
  isDirectory : bool;
  mtime : option jstring;
  size : Z
}.

(** The argument of [etag]: [string | Uint8Array | Deno.FileInfo]. *)
Inductive Chunk : Type :=
| ChunkString (s : jstring)
| ChunkBytes (b : list N)
| ChunkFileInfo (i : FileInfo).

(** A thrown value: an [Error] with the properties the code attaches. *)
Record JsError : Type := mkJsError {
  err_name : jstring;
  err_message : jstring;
  err_status : option Z;
  err_statusCode : option Z;
  err_types : option (list jstring)
}.

Definition TypeError (msg : jstring) : JsError :=
  mkJsError (js "TypeError") msg None None None.

(** An application setting read through [app.get]. *)
Inductive Setting : Type :=
| SetUndefined
| SetBoolean (b : bool)
| SetNumber (n : Z)
| SetString (s : jstring)
| SetFunction (id : N).

(** A value of [req.query]: a string, an array, a nested object. *)
Inductive QueryValue : Type :=
| QString (s : jstring)
| QArray (items : list QueryValue)
| QObject.

(** The settings [response.ts] reads from the application.  [etag_fn] is
    [Some f] exactly when [typeof app.get("etag fn") === "function"]. *)
Record Application : Type := mkApplication {
  etag_fn : option (Chunk -> jstring);
  json_replacer : Setting;
  json_spaces : Setting;
  json_escape : Setting;
  jsonp_callback_name : jstring
}.

(** What [response.ts] and [serveStatic.ts] read from the request.
    [fresh] is a getter over the request headers and the response's status
    and validators; [accepts] answers an array or [false] ([None]). *)
Record Request : Type := mkRequest {
  method : jstring;
  query : jstring -> option QueryValue;
  accepts : list jstring -> option (list jstring);
  fresh : Z -> Headers.t -> bool;
  pathname : jstring;
  originalPathname : jstring
}.

(** What [req.respond(this)] reads off the response when it is called. *)
Record Transmission : Type := mkTransmission {
  sent_status : Z;
  sent_headers : Headers.t;
  sent_body : option DenoResponseBody
}.

(** Calls that leave the modelled files; the log lists them oldest first. *)
Inductive Event : Type :=
| EvRespond (t : Transmission)
| EvEtagFn (c : Chunk)
| EvHandler (key : jstring)
| EvDefault
| EvNext (err : option JsError)
| EvStat (path : jstring)
| EvReadFile (path : jstring)
| EvBefore (path : jstring).

(** Functions imported from [deps.ts] and [utils/], and the file system. *)
Record Deps : Type := mkDeps {
  contentType : jstring -> option jstring;
  contentDisposition : jstring -> jstring -> jstring;
  basename : jstring -> jstring;
  extname : jstring -> jstring;
  stringify : ResponseBody -> Setting -> Setting -> Setting -> jstring;
  normalizeType : jstring -> jstring;
  deps_vary : Headers.t -> jstring -> Headers.t;
  encodeUrl : jstring -> jstring;
  escapeHtml : jstring -> jstring;
  join : jstring -> jstring -> jstring;
  fromFileUrl : jstring -> JsError + jstring;
  readFile : jstring -> JsError + list N;
  stat : jstring -> JsError + FileInfo;
  formatUrl : jstring -> jstring;
  createError : Z -> JsError
}.

(** ** The response object and computations over it *)

(** The fields of [class Response], and the log of outgoing calls.
    [body] is declared without initialiser, hence [None] at first. *)
Record Response : Type := mkResponse {
  status : Z;
  headers : Headers.t;
  body : option DenoResponseBody;
  app : Application;
  req : Request;
  log : list Event
}.

(** How a call ends: it returns a value or throws, and either way leaves
    the response object as mutated so far. *)
Inductive Completion (A : Type) : Type :=
| Return (a : A) (r : Response)
| Throw (e : JsError) (r : Response).
Arguments Return {A} a r.
Arguments Throw {A} e r.

Definition Method (A : Type) : Type := Response -> Completion A.

Definition final {A} (c : Completion A) : Response :=
  match c with
  | Return _ r => r
  | Throw _ r => r
  end.

Definition thrown {A} (c : Completion A) : option JsError :=
  match c with
  | Return _ _ => None
  | Throw e _ => Some e
  end.

#[global] Instance Method_ret : MRet Method :=
  fun A a r => Return a r.

#[global] Instance Method_bind : MBind Method :=
  fun A B k m r =>
    match m r with
    | Return a r' => k a r'
    | Throw e r' => Throw e r'
    end.

Definition throw {A} (e : JsError) : Method A := fun r => Throw e r.

(** [try { m } catch (err) { h(err) }]. *)
Definition try_catch {A} (m : Method A) (h : JsError -> Method A) : Method A :=
  fun r =>
    match m r with
    | Return a r' => Return a r'
    | Throw e r' => h e r'
    end.

Definition read {A} (f : Response -> A) : Method A := fun r => Return (f r) r.

Definition update (f : Response -> Response) : Method unit :=
  fun r => Return tt (f r).

Definition set_status (code : Z) (r : Response) : Response :=
  mkResponse code (headers r) (body r) (app r) (req r) (log r).

Definition set_headers (h : Headers.t) (r : Response) : Response :=
  mkResponse (status r) h (body r) (app r) (req r) (log r).

Definition set_body (b : option DenoResponseBody) (r : Response) : Response :=
  mkResponse (status r) (headers r) b (app r) (req r) (log r).

Definition emit (e : Event) : Method unit :=
  update (fun r =>
    mkResponse (status r) (headers r) (body r) (app r) (req r) (log r ++ [e])).

(** A result of a fallible collaborator, lifted. *)
Definition lift {A} (x : JsError + A) : Method A :=
  match x with
  | inl e => throw e
  | inr a => mret a
  end.

(** The transmissions among the logged calls. *)
Definition transmissions (l : list Event) : list Transmission :=
  omap (fun e => match e with EvRespond t => Some t | _ => None end) l.

(** ** [class Response] *)

(** Truthiness of the optional argument of [end]: [undefined] and the
    empty string are falsy, every object is truthy. *)
Definition truthy_body (b : option DenoResponseBody) : bool :=
  match b with
  | Some (BodyString s) => nonempty s
  | Some (BodyBytes _) => true
  | Some (BodyReader _) => true
  | None => false
  end.

(** [typeof (chunk as any).length]: strings and byte arrays have a
    numeric [length], a [Deno.FileInfo] has none. *)
Definition typeof_length (chunk : Chunk) : jstring :=
  match chunk with
  | ChunkString _ => js "number"
  | ChunkBytes _ => js "number"
  | ChunkFileInfo _ => js "undefined"
  end.

(** [filename || path]. *)
Definition or_else (filename : option jstring) (path : jstring) : jstring :=
  match filename with
  | Some f => if nonempty f then f else path
  | None => path
  end.

(** The callback charset of [jsonp]: the class [[\[\]\w$.]]. *)
Definition callback_safe (c : N) : bool :=
  ((48 <=? c) && (c <=? 57) || (65 <=? c) && (c <=? 90)
   || (97 <=? c) && (c <=? 122) || (c =? 95) || (c =? 91) || (c =? 93)
   || (c =? 36) || (c =? 46))%N.

(** The [replace] of [jsonp] that deletes every code unit outside the
    callback charset. *)
Definition restrict_callback (callback : jstring) : jstring :=
  List.filter callback_safe callback.

(** The two [replace] calls of [jsonp]: every code unit U+2028 becomes
    the six characters backslash, u, 2, 0, 2, 8, and likewise U+2029. *)
Definition replace_unit (c : N) (by_ : jstring) (s : jstring) : jstring :=
  List.flat_map (fun d => if (d =? c)%N then by_ else [d]) s.

Definition escape_separators (s : jstring) : jstring :=
  replace_unit 8233 (js "\u2029") (replace_unit 8232 (js "\u2028") s).

(** The template literal of [jsonp]. *)
Definition jsonp_script (callback payload : jstring) : jstring :=
  js "/**/ typeof " ++ callback ++ js " === 'function' && " ++ callback
    ++ js "(" ++ payload ++ js ");".

(** The error [format] hands to [next] when nothing is acceptable;
    [normalizeTypes(keys).map(o => o.value)] normalises each offered key. *)
Definition not_acceptable (D : Deps) (keys : list jstring) : JsError :=
  mkJsError (js "Error") (js "Not Acceptable") (Some 406) (Some 406)
    (Some (List.map (normalizeType D) keys)).

Section ResponseMethods.

Context (D : Deps).

(** [get(field)]: the header under the lower-cased name, or the empty
    string when [Headers.get] answers [null] or an empty value. *)
Definition get (field : jstring) (r : Response) : jstring :=
  default [] (Headers.get (headers r) (toLowerCase field)).

(** [type(type)]. *)
Definition type (t : jstring) : Method unit :=
  update (fun r =>
    set_headers
      (Headers.set (headers r) (js "content-type") (default [] (contentType D t)))
      r).

(** [set(field, value)]. *)
Definition set (field value : jstring) : Method unit :=
  let lowerCaseField := toLowerCase field in
  if eqb lowerCaseField (js "content-type") then type value
  else update (fun r =>
         set_headers (Headers.set (headers r) lowerCaseField value) r).

(** [unset(field)]. *)
Definition unset (field : jstring) : Method unit :=
  update (fun r => set_headers (Headers.delete (headers r) field) r).

(** [append(field, value)]. *)
Definition append (field value : jstring) : Method unit :=
  update (fun r => set_headers (Headers.append (headers r) field value) r).

(** [setStatus(code)]. *)
Definition setStatus (code : Z) : Method unit := update (set_status code).

(** [vary(field)]. *)
Definition vary (field : jstring) : Method unit :=
  update (fun r => set_headers (deps_vary D (headers r) field) r).

(** [etag(chunk)]. *)
Definition etag (chunk : Chunk) : Method unit :=
  etagFn ← read (fun r => etag_fn (app r));
  match etagFn with
  | Some f =>
      if nonempty (typeof_length chunk) then
        emit (EvEtagFn chunk);;
        let etag := f chunk in
        if nonempty etag then set (js "ETag") etag else mret tt
      else mret tt
  | None => mret tt
  end.

(** [end(body?)]: the assignment is guarded by the truthiness of [body];
    [req.respond(this)] is called on every path. *)
Definition end_ (b : option DenoResponseBody) : Method unit :=
  (if truthy_body b then update (set_body b) else mret tt);;
  r ← read id;
  emit (EvRespond (mkTransmission (status r) (headers r) (body r))).

(** [send] after its [switch], first half (lines 487 to 496): the default
    content type of a string and the ETag of a string or byte array. *)
Definition send_validators (chunk : DenoResponseBody) : Method unit :=
  ct ← read (get (js "Content-Type"));
  (match chunk with
   | BodyString _ => if negb (nonempty ct) then type (js "html") else mret tt
   | _ => mret tt
   end);;
  et ← read (get (js "ETag"));
  if negb (nonempty et) then
    match chunk with
    | BodyString s => etag (ChunkString s)
    | BodyBytes b => etag (ChunkBytes b)
    | BodyReader _ => mret tt
    end
  else mret tt.

(** [send] after its [switch], second half (lines 498 to 514): freshness,
    the statuses without entity, [HEAD], and the call of [end]. *)
Definition send_transmit (chunk : DenoResponseBody) : Method unit :=
  fr ← read (fun r => fresh (req r) (status r) (headers r));
  (if (fr : bool) then update (set_status 304) else mret tt);;
  st ← read status;
  chunk' ← (if (st =? 204) || (st =? 304) then
              unset (js "Content-Type");;
              unset (js "Content-Length");;
              unset (js "Transfer-Encoding");;
              mret (BodyString [])
            else mret chunk);
  m ← read (fun r => method (req r));
  if eqb m (js "HEAD") then end_ None else end_ (Some chunk').

(** [send] from the end of its [switch] on: [chunk] has been assigned. *)
Definition send_chunk (chunk : DenoResponseBody) : Method unit :=
  send_validators chunk;; send_transmit chunk.

(** [json(body)]; its last line is [this.send(body)] on a string. *)
Definition json (b : ResponseBody) : Method unit :=
  a ← read app;
  let text := stringify D b (json_replacer a) (json_spaces a) (json_escape a) in
  ct ← read (get (js "Content-Type"));
  (if negb (nonempty ct) then type (js "application/json") else mret tt);;
  send_chunk (BodyString text).

(** [send(body)]: the [switch] on [typeof body].  [typeof null] is
    ["object"], and the test of that branch reads [body.read]. *)
Definition send (b : ResponseBody) : Method unit :=
  match b with
  | RString s => send_chunk (BodyString s)
  | RBoolean _ => json b
  | RNumber _ => json b
  | RNull => throw (TypeError (js "Cannot read property 'read' of null"))
  | RUint8Array bytes =>
      ct ← read (get (js "Content-Type"));
      (if negb (nonempty ct) then type (js "bin") else mret tt);;
      send_chunk (BodyBytes bytes)
  | RReader id =>
      ct ← read (get (js "Content-Type"));
      (if negb (nonempty ct) then type (js "bin") else mret tt);;
      send_chunk (BodyReader id)
  | RObject _ => json b
  end.

(** [jsonp(body)]. *)
Definition jsonp (b : ResponseBody) : Method unit :=
  a ← read app;
  let text := stringify D b (json_replacer a) (json_spaces a) (json_escape a) in
  q ← read (fun r => query (req r) (jsonp_callback_name a));
  let callback :=
    match q with
    | Some (QArray items) => head items
    | other => other
    end in
  match callback with
  | Some (QString cb) =>
      if nonempty cb then
        set (js "X-Content-Type-Options") (js "nosniff");;
        type (js "text/javascript");;
        send (RString (jsonp_script (restrict_callback cb) (escape_separators text)))
      else
        ct ← read (get (js "Content-Type"));
        (if negb (nonempty ct) then
           set (js "X-Content-Type-Options") (js "nosniff");;
           set (js "Content-Type") (js "application/json")
         else mret tt);;
        send (RString text)
  | _ =>
      ct ← read (get (js "Content-Type"));
      (if negb (nonempty ct) then
         set (js "X-Content-Type-Options") (js "nosniff");;
         set (js "Content-Type") (js "application/json")
       else mret tt);;
      send (RString text)
  end.

(** The argument of [format]: its own keys in [Object.keys] order, each
    with the callback stored under it. *)
Definition Handlers : Type := list (jstring * Method unit).

Definition handler_of (obj : Handlers) (key : jstring) : option (Method unit) :=
  snd <$> List.find (fun kv => eqb (fst kv) key) obj.

(** [Object.keys(rest)] after [const { default: fn, ...rest } = obj]. *)
Definition offered_keys (obj : Handlers) : list jstring :=
  List.filter (fun k => negb (eqb k (js "default"))) (List.map fst obj).

(** [keys.length > 0 ? req.accepts(keys)[0] : false], with [None] for
    every falsy outcome. *)
Definition negotiated_key (rq : Request) (keys : list jstring) : option jstring :=
  match keys with
  | [] => None
  | _ :: _ =>
      match accepts rq keys ≫= head with
      | Some k => if nonempty k then Some k else None
      | None => None
      end
  end.

(** [format(obj)]. *)
Definition format (obj : Handlers) : Method unit :=
  rq ← read req;
  let fn := handler_of obj (js "default") in
  let keys := offered_keys obj in
  let key := negotiated_key rq keys in
  vary (js "Accept");;
  match key with
  | Some k =>
      set (js "Content-Type") (normalizeType D k);;
      match handler_of obj k with
      | Some h => emit (EvHandler k);; h
      | None => throw (TypeError (js "obj[key] is not a function"))
      end
  | None =>
      match fn with
      | Some f => emit EvDefault;; f
      | None => emit (EvNext (Some (not_acceptable D keys)))
      end
  end.

(** [sendFile(path)]. *)
Definition sendFile (path : jstring) : Method unit :=
  path' ← (if startsWith path (js "file:") then lift (fromFileUrl D path)
           else mret path);
  emit (EvReadFile path');;
  bytes ← lift (readFile D path');
  emit (EvStat path');;
  stats ← lift (stat D path');
  (match mtime stats with
   | Some t => set (js "Last-Modified") t
   | None => mret tt
   end);;
  et ← read (get (js "ETag"));
  (if negb (nonempty et) then etag (ChunkFileInfo stats) else mret tt);;
  type (extname D path');;
  send (RUint8Array bytes).

(** [download(path, filename?)]. *)
Definition download (path : jstring) (filename : option jstring) : Method unit :=
  set (js "Content-Disposition")
      (contentDisposition D (js "attachment") (basename D (or_else filename path)));;
  try_catch (sendFile path)
    (fun err => unset (js "Content-Disposition");; throw err).

End ResponseMethods.

(** ** States named in the properties *)

(** The response as [download] leaves it for [sendFile]. *)
Definition with_attachment (D : Deps) (path : jstring) (filename : option jstring)
    (r : Response) : Response :=
  set_headers
    (<[js "content-disposition" :=
         contentDisposition D (js "attachment") (basename D (or_else filename path))]>
       (headers r))
    r.

(** The three header deletions of a response without entity. *)
Definition without_entity (h : Headers.t) : Headers.t :=
  Headers.delete
    (Headers.delete (Headers.delete h (js "Content-Type")) (js "Content-Length"))
    (js "Transfer-Encoding").

(** ** [serveStatic] *)

(** [options.before]: absent, a function, or some other truthy value. *)
Inductive BeforeOption : Type :=
| BeforeAbsent
| BeforeFunction (hook : jstring -> FileInfo -> Method unit)
| BeforeOther.

(** [options], with [fallthrough] and [redirect] already compared against
    [false]. *)
Record Options : Type := mkOptions {
  fallthrough : bool;
  redirect : bool;
  before : BeforeOption
}.

(** The receiver of a call: an object with a [req] property. *)
Record Receiver : Type := mkReceiver {
  receiver_req : Request
}.

(** A directory listener: [this], then [req], [forwardError], [fullPath];
    [res] is the response the computation runs on and [next] is logged. *)
Definition DirectoryListener : Type :=
  option Receiver -> Request -> bool -> jstring -> Method unit.

(** The loop of [collapseLeadingSlashes]: the index of the first code
    unit that is not a slash. *)
Fixpoint leading_slashes (str : jstring) : nat :=
  match str with
  | c :: rest => if (c =? 47)%N then S (leading_slashes rest) else O
  | [] => O
  end.

Definition collapseLeadingSlashes (str : jstring) : jstring :=
  let i := leading_slashes str in
  if (1 <? i)%nat then js "/" ++ drop i str else str.

Definition newline : jstring := [10%N].

Definition dquote : jstring := [34%N].

Definition createHtmlDocument (title body_ : jstring) : jstring :=
  js "<!DOCTYPE html>" ++ newline ++
  js "<html lang=" ++ dquote ++ js "en" ++ dquote ++ js ">" ++ newline ++
  js "<head>" ++ newline ++
  js "<meta charset=" ++ dquote ++ js "utf-8" ++ dquote ++ js ">" ++ newline ++
  js "<title>" ++ title ++ js "</title>" ++ newline ++
  js "</head>" ++ newline ++
  js "<body>" ++ newline ++
  js "<pre>" ++ body_ ++ js "</pre>" ++ newline ++
  js "</body>" ++ newline ++
  js "</html>" ++ newline.

Section ServeStatic.

Context (D : Deps).

(** [next()] and [next(err)]. *)
Definition next (err : option JsError) : Method unit := emit (EvNext err).

(** [createNotFoundDirectoryListener()]. *)
Definition createNotFoundDirectoryListener : DirectoryListener :=
  fun this rq forwardError fullPath =>
    if forwardError then next (Some (createError D 404)) else next None.

(** [createRedirectDirectoryListener()]: the original URL is read off
    [this.req]. *)
Definition createRedirectDirectoryListener : DirectoryListener :=
  fun this rq forwardError fullPath =>
    if endsWith fullPath (js "/") then
      if forwardError then next (Some (createError D 404)) else next None
    else
      match this with
      | None => throw (TypeError (js "Cannot read property 'req' of undefined"))
      | Some receiver =>
          let originalUrl_pathname :=
            collapseLeadingSlashes
              (originalPathname (receiver_req receiver) ++ js "/") in
          let loc := encodeUrl D (formatUrl D originalUrl_pathname) in
          let doc :=
            createHtmlDocument (js "Redirecting")
              (js "Redirecting to <a href=" ++ dquote ++ escapeHtml D loc ++ dquote ++ js ">"
                 ++ escapeHtml D loc ++ js "</a>") in
          update (set_status 301);;
          set D (js "Content-Security-Policy") (js "default-src 'none'");;
          set D (js "X-Content-Type-Options") (js "nosniff");;
          set D (js "Location") loc;;
          send D (RString doc)
      end.

(** The relative path of the handler: lines 103 to 108. *)
Definition relative_path (rq : Request) : jstring :=
  let path := pathname rq in
  if eqb path (js "/") && negb (eqb (substr_last (originalPathname rq)) (js "/"))
  then []
  else path.

(** The handler from the join on (lines 110 to 139), for the relative
    [path].  [onDirectory] is called as a plain function, so its [this] is
    [undefined]. *)
Definition serve_path (rootPath : jstring) (options : Options)
    (onDirectory : DirectoryListener) (rq : Request) (path : jstring)
    : Method unit :=
  let forwardError := negb (fallthrough options) in
  let fullPath := join D rootPath path in
  emit (EvStat fullPath);;
  match stat D fullPath with
  | inl err => if forwardError then next (Some err) else next None
  | inr info =>
      if isDirectory info then onDirectory None rq forwardError fullPath
      else
        (match before options with
         | BeforeFunction hook => emit (EvBefore path);; hook path info
         | _ => mret tt
         end);;
        try_catch (sendFile D fullPath)
          (fun err => if forwardError then next (Some err) else next None)
  end.

(** The handler [serveStatic(root, options)] returns. *)
Definition handle (rootPath : jstring) (options : Options)
    (onDirectory : DirectoryListener) (rq : Request) : Method unit :=
  if negb (eqb (method rq) (js "GET")) && negb (eqb (method rq) (js "HEAD")) then
    if fallthrough options then next None
    else
      update (set_status 405);;
      set D (js "Allow") (js "GET, HEAD");;
      end_ None
  else serve_path rootPath options onDirectory rq (relative_path rq).

(** [serveStatic(root, options)]: the checks made once, then the handler. *)
Definition serveStatic (root : jstring) (options : Options)
    : JsError + (Request -> Method unit) :=
  match before options with
  | BeforeOther => inl (TypeError (js "option before must be function"))
  | _ =>
      match (if startsWith root (js "file:") then fromFileUrl D root
             else inr root) with
      | inl e => inl e
      | inr rootPath =>
          let onDirectory :=
            if redirect options then createRedirectDirectoryListener
            else createNotFoundDirectoryListener in
          inr (handle rootPath options onDirectory)
      end
  end.

End ServeStatic.

(** ** Further methods of [class Response] *)

(** [parts.join(sep)]. *)
Fixpoint join_with (sep : jstring) (parts : list jstring) : jstring :=
  match parts with
  | [] => []
  | [p] => p
  | p :: rest => p ++ sep ++ join_with sep rest
  end.

(** The template literal of [links], for one entry [[field, rel]] of
    [Object.entries(links)]. *)
Definition link_entry (entry : jstring * jstring) : jstring :=
  js "<" ++ fst entry ++ js ">; rel=" ++ dquote ++ snd entry ++ dquote.

Section FurtherMethods.

Context (D : Deps).

(** [attachment(filename)]. *)
Definition attachment (filename : jstring) : Method unit :=
  (if nonempty filename then type D (extname D filename) else mret tt);;
  set D (js "Content-Disposition")
    (contentDisposition D (js "attachment") filename).

(** [links(links)], on the entries of its argument in [Object.entries]
    order. *)
Definition links (entries : list (jstring * jstring)) : Method unit :=
  current ← read (get (js "Link"));
  let currentLink := if nonempty current then current ++ js ", " else current in
  set D (js "Link")
    (currentLink ++ join_with (js ", ") (List.map link_entry entries)).

(** [sendStatus(code)].  [STATUS_TEXT] is the table of [http_status.ts];
    [String(code)] is the decimal text of the code. *)
Definition sendStatus (STATUS_TEXT : Z -> option jstring) (code : Z)
    : Method unit :=
  let text :=
    match STATUS_TEXT code with
    | Some t => if nonempty t then t else js (pretty code)
    | None => js (pretty code)
    end in
  setStatus code;;
  type D (js "txt");;
  send D (RString text).

(** The response as the first half of [send] leaves it. *)
Definition validated (chunk : DenoResponseBody) (r : Response) : Response :=
  let r1 :=
    match chunk with
    | BodyString _ =>
        if nonempty (get (js "Content-Type") r) then r
        else set_headers
               (<[js "content-type" := default [] (contentType D (js "html"))]>
                  (headers r)) r
    | _ => r
    end in
  if nonempty (get (js "ETag") r1) then r1
  else match chunk with
       | BodyString s => final (etag D (ChunkString s) r1)
       | BodyBytes b => final (etag D (ChunkBytes b) r1)
       | BodyReader _ => r1
       end.

(** The chunk and the response with which [send(body)] leaves its
    [switch]; [None] when it throws there. *)
Definition classified (b : ResponseBody) (r : Response)
    : option (DenoResponseBody * Response) :=
  let json_typed :=
    if nonempty (get (js "Content-Type") r) then r
    else set_headers
           (<[js "content-type" :=
                default [] (contentType D (js "application/json"))]> (headers r)) r in
  let bin_typed :=
    if nonempty (get (js "Content-Type") r) then r
    else set_headers
           (<[js "content-type" := default [] (contentType D (js "bin"))]>
              (headers r)) r in
  let text :=
    stringify D b (json_replacer (app r)) (json_spaces (app r))
      (json_escape (app r)) in
  match b with
  | RString s => Some (BodyString s, r)
  | RBoolean _ => Some (BodyString text, json_typed)
  | RNumber _ => Some (BodyString text, json_typed)
  | RNull => None
  | RUint8Array bytes => Some (BodyBytes bytes, bin_typed)
  | RReader id => Some (BodyReader id, bin_typed)
  | RObject _ => Some (BodyString text, json_typed)
  end.

(** The response with further calls logged. *)
Definition logged (calls : list Event) (r : Response) : Response :=
  mkResponse (status r) (headers r) (body r) (app r) (req r) (log r ++ calls).

(** The response as [sendFile] hands it to [send], for the file [path]
    with metadata [stats]: [Last-Modified], then the ETag of the
    metadata, then the content type of the extension. *)
Definition described (path : jstring) (stats : FileInfo) (r : Response)
    : Response :=
  let r1 :=
    match mtime stats with
    | Some t => set_headers (<[js "last-modified" := t]> (headers r)) r
    | None => r
    end in
  let r2 :=
    if nonempty (get (js "ETag") r1) then r1
    else final (etag D (ChunkFileInfo stats) r1) in
  set_headers
    (<[js "content-type" := default [] (contentType D (extname D path))]>
       (headers r2)) r2.

(** What the second [etag] call of [send] is made on: the string or the
    bytes sent, the JSON text for a value that goes through [json], and
    nothing for a reader. *)
Definition sent_chunk (b : ResponseBody) (r : Response) : option Chunk :=
  let text :=
    stringify D b (json_replacer (app r)) (json_spaces (app r))
      (json_escape (app r)) in
  match b with
  | RString s => Some (ChunkString s)
  | RBoolean _ => Some (ChunkString text)
  | RNumber _ => Some (ChunkString text)
  | RNull => None
  | RUint8Array bytes => Some (ChunkBytes bytes)
  | RReader _ => None
  | RObject _ => Some (ChunkString text)
  end.

End FurtherMethods.

(** The calls of the configured ETag function among the logged calls. *)
Definition etag_calls (l : list Event) : list Chunk :=
  omap (fun e => match e with EvEtagFn c => Some c | _ => None end) l.

(** The calls of [next] among the logged calls. *)
Definition next_calls (l : list Event) : list (option JsError) :=
  omap (fun e => match e with EvNext err => Some err | _ => None end) l.

(** The calls of [Deno.stat] and [Deno.readFile] among the logged calls. *)
Definition file_calls (l : list Event) : list jstring :=
  omap (fun e => match e with
                 | EvStat p => Some p
                 | EvReadFile p => Some p
                 | _ => None
                 end) l.

(** The header fields [send] may write or delete. *)
Definition entity_fields : list jstring :=
  [js "content-type"; js "etag"; js "content-length"; js "transfer-encoding"].

(** ** A concrete environment

    Stand-ins for the collaborators, used to run the methods on examples. *)

Module Fixture.

(** Modelled from the spec: [utils/stringify.ts] is not among the sources;
    this is the JSON text of a value when the three JSON settings are at
    their defaults.  Strings are quoted with the quote and the backslash
    escaped. *)
Definition quote_unit (c : N) : jstring :=
  if (c =? 34)%N then [92; 34]%N
  else if (c =? 92)%N then [92; 92]%N
  else [c].

Definition quoted (s : jstring) : jstring :=
  dquote ++ List.flat_map quote_unit s ++ dquote.

Fixpoint commas (parts : list jstring) : jstring :=
  match parts with
  | [] => []
  | [p] => p
  | p :: rest => p ++ js "," ++ commas rest
  end.

Fixpoint json_text (j : Json) : jstring :=
  match j with
  | JNull => js "null"
  | JBool true => js "true"
  | JBool false => js "false"
  | JNumber n => js (pretty n)
  | JString s => quoted s
  | JArray items => js "[" ++ commas (List.map json_text items) ++ js "]"
  | JObject fields =>
      js "{" ++
      commas (List.map
                (fun kv => match kv with
                           | (k, v) => quoted k ++ js ":" ++ json_text v
                           end) fields)
      ++ js "}"
  end.

Definition to_json (b : ResponseBody) : Json :=
  match b with
  | RString s => JString s
  | RBoolean x => JBool x
  | RNumber n => JNumber n
  | RNull => JNull
  | RUint8Array bytes =>
      JObject (imap (fun i x => (js (pretty i), JNumber (Z.of_N x))) bytes)
  | RReader _ => JObject []
  | RObject o => o
  end.

Definition stringify (b : ResponseBody) (replacer spaces escape : Setting)
    : jstring :=
  json_text (to_json b).

(** A few rows of the MIME table behind [contentType]. *)
Definition contentType (t : jstring) : option jstring :=
  if eqb t (js "html") || eqb t (js "text/html") then
    Some (js "text/html; charset=utf-8")
  else if eqb t (js "json") || eqb t (js "application/json") then
    Some (js "application/json; charset=utf-8")
  else if eqb t (js "text/javascript") then
    Some (js "text/javascript; charset=utf-8")
  else if eqb t (js "text/plain") || eqb t (js ".txt") then
    Some (js "text/plain; charset=utf-8")
  else if eqb t (js "bin") then Some (js "application/octet-stream")
  else if eqb t (js ".pdf") then Some (js "application/pdf")
  else None.

Definition normalizeType (t : jstring) : jstring :=
  if eqb t (js "json") then js "application/json"
  else if eqb t (js "html") then js "text/html"
  else if eqb t (js "text") then js "text/plain"
  else t.

Fixpoint take_while (p : N -> bool) (s : jstring) : jstring :=
  match s with
  | c :: rest => if p c then c :: take_while p rest else []
  | [] => []
  end.

Definition basename (path : jstring) : jstring :=
  List.rev (take_while (fun c => negb (c =? 47)%N) (List.rev path)).

Definition extname (path : jstring) : jstring :=
  let name := basename path in
  let tail := take_while (fun c => negb (c =? 46)%N) (List.rev name) in
  if (length tail <? length name)%nat then js "." ++ List.rev tail else [].

Definition contentDisposition (kind filename : jstring) : jstring :=
  kind ++ js "; filename=" ++ dquote ++ filename ++ dquote.

Definition vary (h : Headers.t) (field : jstring) : Headers.t :=
  match Headers.get h (js "vary") with
  | Some old =>
      if eqb (toLowerCase old) (toLowerCase field) then h
      else Headers.set h (js "vary") (old ++ js ", " ++ field)
  | None => Headers.set h (js "vary") field
  end.

Definition notFound (path : jstring) : JsError :=
  mkJsError (js "NotFound") (js "No such file or directory: " ++ path)
    None None None.

(** A file system: the directory [/www], the directory [/www/assets] and
    the file [/www/a.txt]. *)
Definition readFile (path : jstring) : JsError + list N :=
  if eqb path (js "/www/a.txt") then inr (js "hello") else inl (notFound path).

Definition stat (path : jstring) : JsError + FileInfo :=
  if eqb path (js "/www/a.txt") then
    inr (mkFileInfo false (Some (js "Thu, 01 Jan 2015 00:00:00 GMT")) 5)
  else if eqb path (js "/www") || eqb path (js "/www/assets") then
    inr (mkFileInfo true None 0)
  else inl (notFound path).

Definition createError (code : Z) : JsError :=
  mkJsError (js "HttpError") (js "Not Found") (Some code) (Some code) None.

Definition deps : Deps :=
  mkDeps contentType contentDisposition basename extname stringify
    normalizeType vary (fun u => u) (fun t => t)
    (fun root path => root ++ path)
    (fun url => inr (drop 7 url))
    readFile stat (fun p => p) createError.

(** A weak ETag built from the length or the size. *)
Definition etagFn (chunk : Chunk) : jstring :=
  match chunk with
  | ChunkString s => js "W/" ++ dquote ++ js (pretty (length s)) ++ dquote
  | ChunkBytes b => js "W/" ++ dquote ++ js (pretty (length b)) ++ dquote
  | ChunkFileInfo i => js "W/" ++ dquote ++ js (pretty (size i)) ++ dquote
  end.

Definition application : Application :=
  mkApplication (Some etagFn) SetUndefined SetUndefined SetUndefined
    (js "callback").

Definition plain_application : Application :=
  mkApplication None SetUndefined SetUndefined SetUndefined (js "callback").

(** A [GET] of [/assets] that accepts [text/html] only, without query and
    without validators. *)
Definition request : Request :=
  mkRequest (js "GET") (fun _ => None)
    (fun keys => if bool_decide (js "html" ∈ keys) then Some [js "html"] else None)
    (fun _ _ => false) (js "/assets") (js "/assets").

(** The same request with [?callback=cb()]. *)
Definition jsonp_request : Request :=
  mkRequest (js "GET")
    (fun name => if eqb name (js "callback") then Some (QString (js "cb()"))
                 else None)
    (fun _ => None) (fun _ _ => false) (js "/data") (js "/data").

(** A [GET] of [/assets] as seen below the mount point [/assets]. *)
Definition mount_request : Request :=
  mkRequest (js "GET") (fun _ => None) (fun _ => None) (fun _ _ => false)
    (js "/") (js "/assets").

(** The default options of [serveStatic]. *)
Definition options : Options := mkOptions true true BeforeAbsent.

(** An exchange on which a handler has already called
    [res.type("text/plain")]. *)
Definition typed_response : Response :=
  mkResponse 200 (<[js "content-type" := js "text/plain; charset=utf-8"]> ∅)
    None application request [].

(** A few rows of [STATUS_TEXT]. *)
Definition STATUS_TEXT (code : Z) : option jstring :=
  if code =? 200 then Some (js "OK")
  else if code =? 404 then Some (js "Not Found")
  else None.

(** The environment with the row of [txt] added to the MIME table. *)
Definition status_deps : Deps :=
  mkDeps
    (fun t => if eqb t (js "txt") then Some (js "text/plain; charset=utf-8")
              else contentType t)
    contentDisposition basename extname stringify normalizeType vary
    (fun u => u) (fun t => t) (fun root path => root ++ path)
    (fun url => inr (drop 7 url)) readFile stat (fun p => p) createError.

(** A [HEAD] of [/a.txt]. *)
Definition head_request : Request :=
  mkRequest (js "HEAD") (fun _ => None) (fun _ => None) (fun _ _ => false)
    (js "/a.txt") (js "/a.txt").

(** A [POST] to [/a.txt]. *)
Definition post_request : Request :=
  mkRequest (js "POST") (fun _ => None) (fun _ => None) (fun _ _ => false)
    (js "/a.txt") (js "/a.txt").

(** A [GET] of [/a.txt] and one of [/missing.txt]. *)
Definition file_request : Request :=
  mkRequest (js "GET") (fun _ => None) (fun _ => None) (fun _ _ => false)
    (js "/a.txt") (js "/a.txt").

Definition missing_request : Request :=
  mkRequest (js "GET") (fun _ => None) (fun _ => None) (fun _ _ => false)
    (js "/missing.txt") (js "/missing.txt").

(** An exchange on which a handler has already set an [ETag]. *)
Definition tagged_response : Response :=
  mkResponse 200 (<[js "etag" := js "v1"]> ∅) None application request [].

(** The exchange of a [HEAD]. *)
Definition head_response : Response :=
  mkResponse 200 ∅ None application head_request [].

(** [serveStatic] options without redirect, with and without
    fall-through. *)
Definition plain_options : Options := mkOptions true false BeforeAbsent.

Definition strict_options : Options := mkOptions false false BeforeAbsent.

(** A fresh exchange: status 200, no header, no body, nothing logged. *)
Definition response : Response :=
  mkResponse 200 ∅ None application request [].

(** An exchange whose handler has stored a body in [res.body] and chosen
    the status 204 before calling [send]. *)
Definition stale_response : Response :=
  mkResponse 204 ∅ (Some (BodyString (js "stale"))) application request [].

End Fixture.

(** * Properties *)

Arguments js : simpl never.
Arguments eqb : simpl never.
Arguments toLowerCase : simpl never.
Arguments Headers.get : simpl never.
Arguments Headers.set : simpl never.
Arguments Headers.delete : simpl never.

(** ** Strings and headers *)

Lemma lower_unit_idem c : lower_unit (lower_unit c) = lower_unit c.
Proof.
  unfold lower_unit.
  destruct ((65 <=? c)%N && (c <=? 90)%N) eqn:E; [|by rewrite E].
  apply andb_true_iff in E as [H1 H2].
  apply N.leb_le in H1, H2.
  replace ((c + 32 <=? 90)%N) with false; [by rewrite andb_false_r|].
  symmetry. apply N.leb_gt. lia.
Qed.

Lemma toLowerCase_idem s : toLowerCase (toLowerCase s) = toLowerCase s.
Proof.
  unfold toLowerCase. rewrite List.map_map.
  apply List.map_ext. intros c. apply lower_unit_idem.
Qed.





Lemma eqb_eq a b : eqb a b = true <-> a = b.
Proof. unfold eqb. apply bool_decide_eq_true. Qed.

Lemma eqb_neq a b : eqb a b = false <-> a <> b.
Proof. unfold eqb. apply bool_decide_eq_false. Qed.

Lemma nonempty_false s : nonempty s = false <-> s = [].
Proof. destruct s; simpl; split; congruence. Qed.

Lemma headers_get_set h name value :
  Headers.get (Headers.set h name value) name = Some value.
Proof. unfold Headers.get, Headers.set. apply lookup_insert_eq. Qed.

Lemma headers_get_delete h name : Headers.get (Headers.delete h name) name = None.
Proof. unfold Headers.get, Headers.delete. apply lookup_delete_eq. Qed.

Lemma headers_get_delete_other h name name' :
  Headers.get h name' = None -> Headers.get (Headers.delete h name) name' = None.
Proof.
  unfold Headers.get, Headers.delete. intros H.
  rewrite lookup_delete. by case_decide.
Qed.

(** Unfolds the sequencing of methods down to the response records. *)
Ltac run :=
  unfold emit, lift in *;
  unfold mbind, Method_bind, mret, Method_ret, read, update, throw,
    try_catch in *;
  cbn [final thrown status headers body app req log
       set_status set_headers set_body] in *.

(** ** The header accessors *)

Section AccessorFacts.

Context (D : Deps).

Lemma type_run t r :
  type D t r
  = Return tt
      (set_headers (<[js "content-type" := default [] (contentType D t)]> (headers r)) r).
Proof. reflexivity. Qed.

Lemma set_run field value r :
  set D field value r
  = Return tt
      (set_headers
         (<[toLowerCase field :=
              if eqb (toLowerCase field) (js "content-type")
              then default [] (contentType D value) else value]> (headers r))
         r).
Proof.
  unfold set.
  destruct (eqb (toLowerCase field) (js "content-type")) eqn:E.
  - apply eqb_eq in E. rewrite E. apply type_run.
  - unfold update, Headers.set. by rewrite toLowerCase_idem.
Qed.

Lemma get_run field r :
  get field r = default [] (headers r !! toLowerCase field).
Proof. unfold get, Headers.get. by rewrite toLowerCase_idem. Qed.

End AccessorFacts.



(** ** [etag] *)

Lemma etag_run (D : Deps) (chunk : Chunk) (r : Response) :
  etag D chunk r
  = match etag_fn (app r) with
    | None => Return tt r
    | Some f =>
        Return tt
          (mkResponse (status r)
             (if nonempty (f chunk) then <[js "etag" := f chunk]> (headers r)
              else headers r)
             (body r) (app r) (req r) (log r ++ [EvEtagFn chunk]))
    end.
Proof.
  unfold etag. run. destruct (etag_fn (app r)) as [f|] eqn:Hf; [|done].
  replace (nonempty (typeof_length chunk)) with true by (by destruct chunk).
  destruct (nonempty (f chunk)); [|done].
  by rewrite set_run.
Qed.

(** C5, as the code has it: [etag(chunk)] does nothing when no ETag
    function is configured; when one is configured it is called on every
    chunk, file metadata included, because [typeof chunk.length] is a
    non-empty string whatever the chunk, and the header is set only when
    the function answers a non-empty value. *)
Theorem etag_consults_configured_function (D : Deps) (chunk : Chunk) (r : Response) :
  nonempty (typeof_length chunk) = true
  /\ etag D chunk r
     = match etag_fn (app r) with
       | None => Return tt r
       | Some f =>
           Return tt
             (mkResponse (status r)
                (if nonempty (f chunk) then <[js "etag" := f chunk]> (headers r)
                 else headers r)
                (body r) (app r) (req r) (log r ++ [EvEtagFn chunk]))
       end.
Proof.
  split; [by destruct chunk|apply etag_run].
Qed.

(** C5, as stated, fails: a [Deno.FileInfo] has no [length], and yet the
    configured function is called on it and the header is set. *)
Lemma etag_file_info_is_not_a_noop :
  let info := mkFileInfo false None 5 in
  let after := final (etag Fixture.deps (ChunkFileInfo info) Fixture.response) in
  typeof_length (ChunkFileInfo info) = js "undefined"
  /\ log after = [EvEtagFn (ChunkFileInfo info)]
  /\ Headers.get (headers after) (js "ETag")
     = Some (js "W/" ++ dquote ++ js "5" ++ dquote)
  /\ etag Fixture.deps (ChunkFileInfo info) Fixture.response
     <> Return tt Fixture.response.
Proof.
  repeat split; try (vm_compute; reflexivity).
  intros H. apply (f_equal (fun c => log (final c))) in H.
  vm_compute in H. discriminate H.
Qed.

(** ** [download] *)

Lemma download_run (D : Deps) path filename r :
  download D path filename r
  = match sendFile D path (with_attachment D path filename r) with
    | Return _ r2 => Return tt r2
    | Throw err r2 =>
        Throw err (set_headers (delete (js "content-disposition") (headers r2)) r2)
    end.
Proof.
  unfold download. run. rewrite set_run.
  change (eqb (toLowerCase (js "Content-Disposition")) (js "content-type"))
    with false.
  change (toLowerCase (js "Content-Disposition")) with (js "content-disposition").
  unfold with_attachment.
  destruct (sendFile D path _) as [[] r2|e r2]; reflexivity.
Qed.

(** C4: [download] sets [Content-Disposition] to the attachment value
    and then runs [sendFile] on the response that carries it; what
    [sendFile] returns is what [download] returns.  When the transfer
    throws, the error that reaches the caller is the one [sendFile]
    threw, and by then the [Content-Disposition] header has been
    removed. *)
Theorem download_failure_removes_disposition (D : Deps) (path : jstring)
    (filename : option jstring) (r : Response) :
  let attachment_value :=
    contentDisposition D (js "attachment") (basename D (or_else filename path)) in
  let entered :=
    mkResponse (status r)
      (<[js "content-disposition" := attachment_value]> (headers r))
      (body r) (app r) (req r) (log r) in
  get (js "Content-Disposition") entered = attachment_value
  /\ download D path filename r
     = match sendFile D path entered with
       | Return _ r2 => Return tt r2
       | Throw err r2 =>
           Throw err
             (mkResponse (status r2)
                (delete (js "content-disposition") (headers r2))
                (body r2) (app r2) (req r2) (log r2))
       end
  /\ forall (err : JsError) (r' : Response),
       download D path filename r = Throw err r' ->
       (exists r2,
          sendFile D path entered = Throw err r2
          /\ status r' = status r2 /\ body r' = body r2 /\ log r' = log r2
          /\ forall other, toLowerCase other <> js "content-disposition" ->
               get other r' = get other r2)
       /\ Headers.get (headers r') (js "Content-Disposition") = None
       /\ get (js "Content-Disposition") r' = [].
Proof.
  intros attachment_value entered.
  assert (Hrun : download D path filename r
                 = match sendFile D path entered with
                   | Return _ r2 => Return tt r2
                   | Throw err r2 =>
                       Throw err
                         (mkResponse (status r2)
                            (delete (js "content-disposition") (headers r2))
                            (body r2) (app r2) (req r2) (log r2))
                   end) by apply download_run.
  split; [|split; [exact Hrun|]].
  - rewrite get_run. subst entered. cbn [headers].
    change (toLowerCase (js "Content-Disposition")) with (js "content-disposition").
    by rewrite lookup_insert_eq.
  - intros err r' Hfail. rewrite Hrun in Hfail.
    destruct (sendFile D path entered) as [[] r2|e r2]; [discriminate|].
    injection Hfail as <- <-.
    split; [exists r2; repeat split|].
    + intros other Hother. rewrite !get_run. cbn [headers].
      by rewrite lookup_delete_ne.
    + assert (Hgone : Headers.get
                        (delete (js "content-disposition") (headers r2))
                        (js "Content-Disposition") = None)
        by apply lookup_delete_eq.
      split; [exact Hgone|].
      unfold get. cbn [headers]. unfold Headers.get in *.
      rewrite toLowerCase_idem. by rewrite Hgone.
Qed.

(** A download of a file that does not exist: the error of [Deno.readFile]
    reaches the caller and no [Content-Disposition] is left; a download
    of [/www/a.txt] transmits the header. *)
Lemma download_failure_witness :
  let r' := mkResponse 200 ∅ None Fixture.application Fixture.request
              [EvReadFile (js "/x/report.pdf")] in
  download Fixture.deps (js "/x/report.pdf") None Fixture.response
  = Throw (Fixture.notFound (js "/x/report.pdf")) r'
  /\ Headers.get (headers r') (js "Content-Disposition") = None
  /\ (sent_headers <$>
        transmissions
          (log (final (download Fixture.deps (js "/www/a.txt") None
                         Fixture.response))))
     = [<[js "etag" := js "W/" ++ dquote ++ js "5" ++ dquote]>
          (<[js "last-modified" := js "Thu, 01 Jan 2015 00:00:00 GMT"]>
             (<[js "content-type" := js "text/plain; charset=utf-8"]>
                (<[js "content-disposition" :=
                     js "attachment; filename=" ++ dquote ++ js "a.txt" ++ dquote]>
                   ∅)))].
Proof.
  intros r'.
  assert (H : download Fixture.deps (js "/x/report.pdf") None Fixture.response
              = Throw (Fixture.notFound (js "/x/report.pdf")) r')
    by (vm_compute; reflexivity).
  split; [exact H|]. split.
  - exact (proj1 (proj2 (proj2 (proj2
      (download_failure_removes_disposition Fixture.deps (js "/x/report.pdf") None
         Fixture.response)) _ _ H))).
  - rewrite (proj1 (proj2 (download_failure_removes_disposition Fixture.deps
                             (js "/www/a.txt") None Fixture.response))).
    vm_compute. reflexivity.
Defined.

(** ** [send] and the values it classifies *)

(** Every value that is neither a string, nor binary, nor a reader, nor
    [null] goes to [json]. *)
Lemma send_delegates_to_json (D : Deps) (b : ResponseBody) :
  match b with
  | RBoolean _ | RNumber _ | RObject _ => send D b = json D b
  | _ => True
  end.
Proof. by destruct b. Qed.

(** [json] ends in [send] on the JSON text. *)
Lemma json_run (D : Deps) (b : ResponseBody) (r : Response) :
  let text :=
    stringify D b (json_replacer (app r)) (json_spaces (app r)) (json_escape (app r)) in
  json D b r
  = send D (RString text)
      (if nonempty (get (js "Content-Type") r) then r
       else set_headers
              (<[js "content-type" := default [] (contentType D (js "application/json"))]>
                 (headers r)) r).
Proof.
  intros text. unfold json, send. run.
  by destruct (nonempty (get (js "Content-Type") r)).
Qed.

(** C2, on the code: [send(null)] throws a [TypeError] when the object
    branch reads [body.read]; nothing is transmitted and no header is set,
    whereas [json(null)] on the same response transmits the text [null]
    with a JSON content type, and [send(42)] does transmit [42]. *)
Theorem send_null_throws :
  (forall (D : Deps) (r : Response),
     send D RNull r
     = Throw (TypeError (js "Cannot read property 'read' of null")) r)
  /\ transmissions (log (final (send Fixture.deps RNull Fixture.response))) = []
  /\ transmissions (log (final (json Fixture.deps RNull Fixture.response)))
     = [mkTransmission 200
          (<[js "etag" := js "W/" ++ dquote ++ js "4" ++ dquote]>
             (<[js "content-type" := js "application/json; charset=utf-8"]> ∅))
          (Some (BodyString (js "null")))]
  /\ transmissions (log (final (send Fixture.deps (RNumber 42) Fixture.response)))
     = [mkTransmission 200
          (<[js "etag" := js "W/" ++ dquote ++ js "2" ++ dquote]>
             (<[js "content-type" := js "application/json; charset=utf-8"]> ∅))
          (Some (BodyString (js "42")))].
Proof.
  split; [reflexivity|].
  repeat split; vm_compute; reflexivity.
Qed.

(** ** The second half of [send] *)

Section TransmitFacts.

Context (D : Deps).

Lemma end_run b r :
  end_ b r
  = let stored := if truthy_body b then b else body r in
    Return tt
      (mkResponse (status r) (headers r) stored (app r) (req r)
         (log r ++ [EvRespond (mkTransmission (status r) (headers r) stored)])).
Proof. unfold end_. run. by destruct (truthy_body b). Qed.

(** What [send] does from the freshness test on, in one step: the status,
    the headers and the argument of [end] are decided, and [end] keeps the
    body already stored when its argument is falsy. *)
Lemma send_transmit_run chunk r :
  let st := if fresh (req r) (status r) (headers r) then 304 else status r in
  let bare := (st =? 204) || (st =? 304) in
  let h := if bare then without_entity (headers r) else headers r in
  let arg := if eqb (method (req r)) (js "HEAD") then None
             else Some (if bare then BodyString [] else chunk) in
  let stored := if truthy_body arg then arg else body r in
  send_transmit chunk r
  = Return tt
      (mkResponse st h stored (app r) (req r)
         (log r ++ [EvRespond (mkTransmission st h stored)])).
Proof.
  unfold send_transmit, unset, without_entity. run.
  destruct (fresh (req r) (status r) (headers r)); run.
  - change ((304 =? 204) || (304 =? 304)) with true. run.
    destruct (eqb (method (req r)) (js "HEAD")); by rewrite end_run.
  - destruct ((status r =? 204) || (status r =? 304)); run;
      destruct (eqb (method (req r)) (js "HEAD")); by rewrite end_run.
Qed.

(** The first half of [send] returns, and touches the headers and the
    log of ETag computations only. *)
Lemma send_validators_run chunk r :
  exists h l,
    send_validators D chunk r
    = Return tt (mkResponse (status r) h (body r) (app r) (req r) (log r ++ l))
    /\ transmissions l = [].
Proof.
  unfold send_validators. run.
  assert (H1 : exists h1,
             match chunk with
             | BodyString _ =>
                 if negb (nonempty (get (js "Content-Type") r))
                 then type D (js "html") else λ r0, Return tt r0
             | _ => λ r0, Return tt r0
             end r = Return tt (set_headers h1 r)).
  { destruct chunk; try (by exists (headers r); destruct r).
    destruct (negb _); [rewrite type_run; eauto|by exists (headers r); destruct r]. }
  destruct H1 as [h1 ->].
  assert (Hnone : forall h : Headers.t,
             Return tt (set_headers h r)
             = Return tt (mkResponse (status r) h (body r) (app r) (req r)
                            (log r ++ [])))
    by (intros h; by rewrite app_nil_r).
  assert (Hetag : forall c, exists h l,
             etag D c (set_headers h1 r)
             = Return tt (mkResponse (status r) h (body r) (app r) (req r) (log r ++ l))
             /\ transmissions l = []).
  { intros c. rewrite etag_run. cbn.
    destruct (etag_fn (app r)) as [f|]; [by eexists _, [EvEtagFn c]|].
    exists h1, []. by rewrite <- Hnone. }
  destruct (negb (nonempty (get (js "ETag") (set_headers h1 r))));
    [destruct chunk; [apply Hetag|apply Hetag|]|];
    exists h1, []; by rewrite <- Hnone.
Qed.

Lemma transmissions_app l1 l2 :
  transmissions (l1 ++ l2) = transmissions l1 ++ transmissions l2.
Proof. unfold transmissions. apply omap_app. Qed.

Lemma without_entity_get h :
  Headers.get (without_entity h) (js "Content-Type") = None
  /\ Headers.get (without_entity h) (js "Content-Length") = None
  /\ Headers.get (without_entity h) (js "Transfer-Encoding") = None.
Proof.
  unfold without_entity. repeat split.
  - do 2 apply headers_get_delete_other. apply headers_get_delete.
  - apply headers_get_delete_other. apply headers_get_delete.
  - apply headers_get_delete.
Qed.

(** [send] on an assigned chunk: it returns, it calls [req.respond] once,
    with the status and headers it leaves on the response; a fresh request
    makes the status 304; with a final status of 204 or 304 the three
    entity headers are gone and the body sent is the one the response
    already held, [end] having skipped the empty chunk. *)
Lemma send_chunk_run chunk r :
  exists h l r',
    send_validators D chunk r
    = Return tt (mkResponse (status r) h (body r) (app r) (req r) (log r ++ l))
    /\ transmissions l = []
    /\ send_chunk D chunk r = Return tt r'
    /\ log r'
       = (log r ++ l)
           ++ [EvRespond (mkTransmission (status r') (headers r') (body r'))]
    /\ (fresh (req r) (status r) h = true -> status r' = 304)
    /\ (status r' = 204 \/ status r' = 304 ->
          headers r' = without_entity h /\ body r' = body r).
Proof.
  destruct (send_validators_run chunk r) as (h & l & Hv & Hl).
  exists h, l. eexists. split; [exact Hv|]. split; [exact Hl|].
  unfold send_chunk. run. rewrite Hv, send_transmit_run.
  cbn [status headers body app req log].
  split; [reflexivity|]. cbn [status headers body app req log].
  split; [reflexivity|]. split.
  - by intros ->.
  - intros Hst.
    assert (Hbare : ((if fresh (req r) (status r) h then 304 else status r) =? 204)
                    || ((if fresh (req r) (status r) h then 304 else status r) =? 304)
                    = true).
    { destruct Hst as [-> | ->]; reflexivity. }
    rewrite Hbare. split; [reflexivity|].
    by destruct (eqb (method (req r)) (js "HEAD")).
Qed.

End TransmitFacts.

(** With status 204, no freshness and a body already stored, the second
    half of [send] transmits the stored body. *)
Lemma send_transmit_keeps_stored_body (chunk : DenoResponseBody) (r : Response)
    (stored : jstring) :
  body r = Some (BodyString stored) ->
  fresh (req r) (status r) (headers r) = false ->
  status r = 204 ->
  exists r', send_transmit chunk r = Return tt r'
             /\ transmissions (log r')
                = transmissions (log r)
                    ++ [mkTransmission 204 (without_entity (headers r))
                          (Some (BodyString stored))].
Proof.
  intros Hbody Hfresh Hst.
  eexists. split; [apply send_transmit_run|].
  cbn [log]. rewrite transmissions_app, Hfresh, Hst, Hbody. cbn.
  by destruct (eqb (method (req r)) (js "HEAD")).
Qed.

(** C3, on the code: a response that already holds a body and has status
    204 is sent with the entity headers absent, as stated, but with the
    stored body and not an empty one: [send] clears its chunk and [end]
    ignores a falsy argument. *)
Theorem send_204_transmits_stored_body :
  let r' := final (send Fixture.deps (RString (js "text")) Fixture.stale_response) in
  transmissions (log r')
  = [mkTransmission 204
       (<[js "etag" := js "W/" ++ dquote ++ js "4" ++ dquote]> ∅)
       (Some (BodyString (js "stale")))]
  /\ get (js "Content-Type") r' = []
  /\ body r' = Some (BodyString (js "stale")).
Proof. repeat split; vm_compute; reflexivity. Qed.

(** ** One transmission per call *)

Lemma send_chunk_transmits_once (D : Deps) chunk r0 r :
  log r0 = log r ->
  exists r' t,
    send_chunk D chunk r0 = Return tt r'
    /\ transmissions (log r') = transmissions (log r) ++ [t].
Proof.
  intros <-.
  destruct (send_chunk_run D chunk r0) as (h & l & r' & _ & Hl & Hrun & Hlog & _).
  exists r'. eexists. split; [exact Hrun|].
  rewrite Hlog, !transmissions_app, Hl, app_nil_r. reflexivity.
Qed.

Lemma send_transmits_once (D : Deps) (b : ResponseBody) (r : Response) :
  match b with
  | RNull =>
      send D b r = Throw (TypeError (js "Cannot read property 'read' of null")) r
  | _ => exists r' t,
           send D b r = Return tt r'
           /\ transmissions (log r') = transmissions (log r) ++ [t]
  end.
Proof.
  assert (Hjson : exists r' t,
             json D b r = Return tt r'
             /\ transmissions (log r') = transmissions (log r) ++ [t]).
  { rewrite json_run. cbn [send].
    destruct (nonempty (get (js "Content-Type") r));
      by apply send_chunk_transmits_once. }
  assert (Hbin : forall chunk, exists r' t,
             (ct ← read (get (js "Content-Type"));
              (if negb (nonempty ct) then type D (js "bin") else mret tt);;
              send_chunk D chunk) r = Return tt r'
             /\ transmissions (log r') = transmissions (log r) ++ [t]).
  { intros chunk. run.
    destruct (negb (nonempty (get (js "Content-Type") r)));
      [rewrite type_run|]; by apply send_chunk_transmits_once. }
  destruct b; cbn [send]; try exact Hjson; try apply Hbin.
  - by apply send_chunk_transmits_once.
  - reflexivity.
Qed.

(** C1, as the code has it: [end] keeps no record of a transmission.
    Every call returns normally and calls [req.respond] once more, with
    the response as it then stands; so does every [send] of a value other
    than [null].  Refusing a second transmission is left to the
    transport. *)
Theorem end_transmits_on_every_call (D : Deps) (b : option DenoResponseBody)
    (v : ResponseBody) (r : Response) :
  (exists r',
     end_ b r = Return tt r'
     /\ transmissions (log r')
        = transmissions (log r)
            ++ [mkTransmission (status r) (headers r)
                  (if truthy_body b then b else body r)])
  /\ match v with
     | RNull =>
         send D v r
         = Throw (TypeError (js "Cannot read property 'read' of null")) r
     | _ => exists r' t,
              send D v r = Return tt r'
              /\ transmissions (log r') = transmissions (log r) ++ [t]
     end.
Proof.
  split; [|apply send_transmits_once].
  eexists. split; [apply end_run|].
  cbn [log]. by rewrite transmissions_app.
Qed.

(** C1, as stated, fails: after [end("hello")] has transmitted, a second
    [end()] returns without fault and transmits the same response again;
    two calls of [send] do the same. *)
Lemma second_end_transmits_again :
  let hello := mkTransmission 200 ∅ (Some (BodyString (js "hello"))) in
  let r1 := final (end_ (Some (BodyString (js "hello"))) Fixture.response) in
  let r2 := final (send Fixture.deps (RString (js "a")) Fixture.response) in
  transmissions (log r1) = [hello]
  /\ thrown (end_ None r1) = None
  /\ transmissions (log (final (end_ None r1))) = [hello; hello]
  /\ length (transmissions (log r2)) = 1%nat
  /\ thrown (send Fixture.deps (RString (js "b")) r2) = None
  /\ length (transmissions (log (final (send Fixture.deps (RString (js "b")) r2))))
     = 2%nat.
Proof. repeat split; vm_compute; reflexivity. Qed.

(** ** [format] *)

(** The handler stored under a key of an object. *)
Lemma handler_of_entry (obj : Handlers) (k : jstring) (h : Method unit) :
  List.NoDup (List.map fst obj) -> In (k, h) obj -> handler_of obj k = Some h.
Proof.
  unfold handler_of. induction obj as [|[k' h'] obj IH]; [done|].
  cbn [List.map List.find fst]. intros Hnodup Hin.
  apply List.NoDup_cons_iff in Hnodup as (Hfresh & Hnodup).
  destruct (eqb k' k) eqn:E.
  - apply eqb_eq in E. subst k'. destruct Hin as [Heq|Hin].
    + by injection Heq as ->.
    + exfalso. apply Hfresh. apply List.in_map_iff. by exists (k, h).
  - destruct Hin as [Heq|Hin]; [|by apply IH].
    injection Heq as -> ->. apply eqb_neq in E. done.
Qed.

Lemma handler_of_missing (obj : Handlers) (k : jstring) :
  (forall h, ~ In (k, h) obj) -> handler_of obj k = None.
Proof.
  unfold handler_of. intros Hno.
  destruct (List.find (fun kv => eqb (fst kv) k) obj) as [[k' h']|] eqn:Hfind;
    [|reflexivity].
  apply List.find_some in Hfind as (Hin & Heq). cbn in Heq.
  apply eqb_eq in Heq. subst k'. by destruct (Hno h').
Qed.

Lemma negotiated_key_matched (rq : Request) (keys : list jstring)
    (k : jstring) (rest : list jstring) :
  keys <> [] -> accepts rq keys = Some (k :: rest) -> k <> [] ->
  negotiated_key rq keys = Some k.
Proof.
  intros Hkeys Haccepts Hk. unfold negotiated_key.
  destruct keys; [done|]. rewrite Haccepts. cbn. by destruct k.
Qed.

Lemma negotiated_key_unmatched (rq : Request) (keys : list jstring) :
  keys = [] \/ accepts rq keys = None \/ accepts rq keys = Some []
  \/ (exists rest, accepts rq keys = Some ([] :: rest)) ->
  negotiated_key rq keys = None.
Proof.
  unfold negotiated_key. intros [->|H]; [reflexivity|].
  destruct keys; [reflexivity|].
  destruct H as [->|[->|(rest & ->)]]; reflexivity.
Qed.

(** C6: [format] always passes [Accept] to [vary] first.  When
    [req.accepts], asked about the keys of the object other than
    [default], answers one of them, [format] sets [Content-Type] from the
    normalised key and calls the handler stored under that key.  When it
    answers none, or there is no such key, [format] calls the handler
    stored under [default] if there is one, and otherwise calls [next]
    with an error [Not Acceptable] of status 406 that carries the
    normalised keys that were offered.  The keys of an object are
    distinct. *)
Theorem format_negotiates (D : Deps) (obj : Handlers) (r : Response)
    (Hobject : List.NoDup (List.map fst obj)) :
  let varied := deps_vary D (headers r) (js "Accept") in
  let keys :=
    List.filter (fun k => negb (eqb k (js "default"))) (List.map fst obj) in
  let unmatched :=
    keys = [] \/ accepts (req r) keys = None \/ accepts (req r) keys = Some []
    \/ (exists rest, accepts (req r) keys = Some ([] :: rest)) in
  (forall k rest h,
     keys <> [] -> accepts (req r) keys = Some (k :: rest) -> k <> [] ->
     In (k, h) obj ->
     format D obj r
     = h (mkResponse (status r)
            (<[js "content-type" :=
                 default [] (contentType D (normalizeType D k))]> varied)
            (body r) (app r) (req r) (log r ++ [EvHandler k])))
  /\ (forall k rest,
        keys <> [] -> accepts (req r) keys = Some (k :: rest) -> k <> [] ->
        (forall h, ~ In (k, h) obj) ->
        format D obj r
        = Throw (TypeError (js "obj[key] is not a function"))
            (mkResponse (status r)
               (<[js "content-type" :=
                    default [] (contentType D (normalizeType D k))]> varied)
               (body r) (app r) (req r) (log r)))
  /\ (forall f,
        unmatched -> In (js "default", f) obj ->
        format D obj r
        = f (mkResponse (status r) varied (body r) (app r) (req r)
               (log r ++ [EvDefault])))
  /\ (unmatched -> (forall f, ~ In (js "default", f) obj) ->
      format D obj r
      = Return tt
          (mkResponse (status r) varied (body r) (app r) (req r)
             (log r ++ [EvNext (Some
                (mkJsError (js "Error") (js "Not Acceptable") (Some 406)
                   (Some 406) (Some (List.map (normalizeType D) keys))))]))).
Proof.
  intros varied keys unmatched.
  assert (Hmatch : forall k,
            negotiated_key (req r) keys = Some k ->
            format D obj r
            = match handler_of obj k with
              | Some h =>
                  h (mkResponse (status r)
                       (<[js "content-type" :=
                            default [] (contentType D (normalizeType D k))]> varied)
                       (body r) (app r) (req r) (log r ++ [EvHandler k]))
              | None =>
                  Throw (TypeError (js "obj[key] is not a function"))
                    (mkResponse (status r)
                       (<[js "content-type" :=
                            default [] (contentType D (normalizeType D k))]> varied)
                       (body r) (app r) (req r) (log r))
              end).
  { intros k Hk. unfold format, vary. run.
    change (offered_keys obj) with keys. rewrite Hk, set_run.
    change (eqb (toLowerCase (js "Content-Type")) (js "content-type")) with true.
    change (toLowerCase (js "Content-Type")) with (js "content-type").
    cbn [headers set_headers].
    destruct (handler_of obj k); reflexivity. }
  assert (Hnone : negotiated_key (req r) keys = None ->
            format D obj r
            = match handler_of obj (js "default") with
              | Some f =>
                  f (mkResponse (status r) varied (body r) (app r) (req r)
                       (log r ++ [EvDefault]))
              | None =>
                  Return tt
                    (mkResponse (status r) varied (body r) (app r) (req r)
                       (log r ++ [EvNext (Some (not_acceptable D keys))]))
              end).
  { intros Hk. unfold format, vary. run.
    change (offered_keys obj) with keys. rewrite Hk.
    destruct (handler_of obj (js "default")); reflexivity. }
  repeat split.
  - intros k rest h Hkeys Haccepts Hk Hin.
    rewrite (Hmatch k) by by eapply negotiated_key_matched.
    by rewrite (handler_of_entry obj k h).
  - intros k rest Hkeys Haccepts Hk Hno.
    rewrite (Hmatch k) by by eapply negotiated_key_matched.
    by rewrite (handler_of_missing obj k).
  - intros f Hun Hin.
    rewrite Hnone by by apply negotiated_key_unmatched.
    by rewrite (handler_of_entry obj (js "default") f).
  - intros Hun Hno.
    rewrite Hnone by by apply negotiated_key_unmatched.
    by rewrite (handler_of_missing obj (js "default")).
Qed.

(** [format({ json: fn1, html: fn2 })]: a request that accepts
    [text/html] gets [fn2], run on a response with [Vary: Accept] and the
    content type of [html]; a request that accepts neither gets the 406
    error with both types. *)
Lemma format_negotiates_witness :
  let fn1 : Method unit := send Fixture.deps (RString (js "{}")) in
  let fn2 : Method unit := send Fixture.deps (RString (js "<p>hey</p>")) in
  let obj : Handlers := [(js "json", fn1); (js "html", fn2)] in
  let xml_request :=
    mkRequest (js "GET") (fun _ => None) (fun _ => None) (fun _ _ => false)
      (js "/") (js "/") in
  let xml_response :=
    mkResponse 200 ∅ None Fixture.application xml_request [] in
  format Fixture.deps obj Fixture.response
  = fn2 (mkResponse 200
           (<[js "content-type" := js "text/html; charset=utf-8"]>
              (<[js "vary" := js "Accept"]> ∅))
           None Fixture.application Fixture.request [EvHandler (js "html")])
  /\ format Fixture.deps obj xml_response
     = Return tt
         (mkResponse 200 (<[js "vary" := js "Accept"]> ∅) None
            Fixture.application xml_request
            [EvNext (Some (mkJsError (js "Error") (js "Not Acceptable")
                             (Some 406) (Some 406)
                             (Some [js "application/json"; js "text/html"])))]).
Proof.
  intros fn1 fn2 obj xml_request xml_response.
  assert (Hobject : List.NoDup (List.map fst obj)).
  { repeat constructor; intros H; vm_compute in H; intuition discriminate. }
  split.
  - refine (proj1 (format_negotiates Fixture.deps obj Fixture.response Hobject)
              (js "html") [] fn2 _ eq_refl _ _).
    + discriminate.
    + discriminate.
    + right. left. reflexivity.
  - refine (proj2 (proj2 (proj2
              (format_negotiates Fixture.deps obj xml_response Hobject))) _ _).
    + right. left. reflexivity.
    + intros f [H|[H|[]]]; vm_compute in H; discriminate H.
Defined.

(** The two exchanges of the specification: [{ json, html }] against a
    request that accepts [text/html], and against one that accepts
    neither. *)
Example format_html_and_406 :
  let fn1 : Method unit := send Fixture.deps (RString (js "{}")) in
  let fn2 : Method unit := send Fixture.deps (RString (js "<p>hey</p>")) in
  let obj : Handlers := [(js "json", fn1); (js "html", fn2)] in
  let xml_request :=
    mkRequest (js "GET") (fun _ => None) (fun _ => None) (fun _ _ => false)
      (js "/") (js "/") in
  let xml_response :=
    mkResponse 200 ∅ None Fixture.application xml_request [] in
  let r1 := final (format Fixture.deps obj Fixture.response) in
  let r2 := final (format Fixture.deps obj xml_response) in
  get (js "Vary") r1 = js "Accept"
  /\ get (js "Content-Type") r1 = js "text/html; charset=utf-8"
  /\ head (log r1) = Some (EvHandler (js "html"))
  /\ transmissions (log r1)
     = [mkTransmission 200 (headers r1) (Some (BodyString (js "<p>hey</p>")))]
  /\ get (js "Vary") r2 = js "Accept"
  /\ log r2
     = [EvNext (Some (mkJsError (js "Error") (js "Not Acceptable") (Some 406)
                        (Some 406)
                        (Some [js "application/json"; js "text/html"])))].
Proof. repeat split; vm_compute; reflexivity. Qed.

(** ** [serveStatic] *)

Lemma relative_path_at_mount (rq : Request) :
  pathname rq = js "/" ->
  substr_last (originalPathname rq) <> js "/" ->
  relative_path rq = [].
Proof.
  intros Hpath Horig. unfold relative_path. rewrite Hpath.
  apply eqb_neq in Horig. rewrite Horig. reflexivity.
Qed.

(** C8: when the path relative to the mount is [/] and the original
    pathname does not end in a slash, the handler takes the empty string
    as relative path: whatever is not turned away for its method is
    served from [join(rootPath, "")], which is the path handed to
    [Deno.stat], to the directory listener and to [sendFile]. *)
Theorem mount_root_is_resolved (D : Deps) (rootPath : jstring) (options : Options)
    (onDirectory : DirectoryListener) (rq : Request) (r : Response)
    (Hpath : pathname rq = js "/")
    (Horig : substr_last (originalPathname rq) <> js "/") :
  let stated :=
    mkResponse (status r) (headers r) (body r) (app r) (req r)
      (log r ++ [EvStat (join D rootPath [])]) in
  relative_path rq = []
  /\ handle D rootPath options onDirectory rq r
     = (if negb (eqb (method rq) (js "GET")) && negb (eqb (method rq) (js "HEAD"))
        then
          if fallthrough options then next None r
          else (update (set_status 405);;
                set D (js "Allow") (js "GET, HEAD");;
                end_ None) r
        else serve_path D rootPath options onDirectory rq [] r)
  /\ serve_path D rootPath options onDirectory rq [] r
     = match stat D (join D rootPath []) with
       | inl err => next (if fallthrough options then None else Some err) stated
       | inr info =>
           if isDirectory info then
             onDirectory None rq (negb (fallthrough options)) (join D rootPath [])
               stated
           else
             ((match before options with
               | BeforeFunction hook => emit (EvBefore []);; hook [] info
               | _ => mret tt
               end);;
              try_catch (sendFile D (join D rootPath []))
                (fun err => if negb (fallthrough options) then next (Some err)
                            else next None)) stated
       end.
Proof.
  intros stated.
  assert (Hrel := relative_path_at_mount rq Hpath Horig).
  split; [exact Hrel|]. split.
  - unfold handle. rewrite Hrel.
    destruct (negb (eqb (method rq) (js "GET")) && negb (eqb (method rq) (js "HEAD")));
      [by destruct (fallthrough options)|reflexivity].
  - unfold serve_path. run. fold stated.
    destruct (stat D (join D rootPath [])) as [err|info].
    + unfold next. by destruct (fallthrough options).
    + destruct (isDirectory info); reflexivity.
Qed.

(** [GET /assets] under a mount at [/assets], served from [/www/assets]. *)
Lemma mount_root_witness :
  pathname Fixture.mount_request = js "/"
  /\ substr_last (originalPathname Fixture.mount_request) = js "s"
  /\ relative_path Fixture.mount_request = []
  /\ handle Fixture.deps (js "/www/assets") Fixture.options
       (createRedirectDirectoryListener Fixture.deps) Fixture.mount_request
       Fixture.response
     = serve_path Fixture.deps (js "/www/assets") Fixture.options
         (createRedirectDirectoryListener Fixture.deps) Fixture.mount_request []
         Fixture.response.
Proof.
  split; [reflexivity|]. split; [reflexivity|].
  assert (Horig : substr_last (originalPathname Fixture.mount_request) <> js "/")
    by (vm_compute; discriminate).
  destruct (mount_root_is_resolved Fixture.deps (js "/www/assets") Fixture.options
              (createRedirectDirectoryListener Fixture.deps) Fixture.mount_request
              Fixture.response eq_refl Horig) as (H1 & H2 & _).
  split; [exact H1|exact H2].
Defined.



(** Called on a receiver that carries the request, as the event emitter
    of the original module does, the redirect listener answers 301 with
    the three headers and the HTML document. *)
Lemma redirect_listener_with_receiver (D : Deps) (receiver : Receiver)
    (rq : Request) (forwardError : bool) (fullPath : jstring) (r : Response) :
  endsWith fullPath (js "/") = false ->
  let loc :=
    encodeUrl D (formatUrl D
      (collapseLeadingSlashes (originalPathname (receiver_req receiver) ++ js "/"))) in
  let doc :=
    createHtmlDocument (js "Redirecting")
      (js "Redirecting to <a href=" ++ dquote ++ escapeHtml D loc ++ dquote
         ++ js ">" ++ escapeHtml D loc ++ js "</a>") in
  createRedirectDirectoryListener D (Some receiver) rq forwardError fullPath r
  = send D (RString doc)
      (mkResponse 301
         (<[js "location" := loc]>
            (<[js "x-content-type-options" := js "nosniff"]>
               (<[js "content-security-policy" := js "default-src 'none'"]>
                  (headers r))))
         (body r) (app r) (req r) (log r)).
Proof.
  intros Hslash loc doc. unfold createRedirectDirectoryListener.
  rewrite Hslash. run. rewrite !set_run. reflexivity.
Qed.

(** C9, on the code: [GET /assets] on a directory, with [redirect] on.
    The handler calls the redirect listener as a plain function; the
    listener reads [this.req] with [this] undefined and throws a
    [TypeError]: the status is still 200, no header is set and nothing is
    transmitted. *)
Theorem serveStatic_directory_redirect_throws :
  match serveStatic Fixture.deps (js "/www") Fixture.options with
  | inr handler =>
      stat Fixture.deps (js "/www/assets") = inr (mkFileInfo true None 0)
      /\ handler Fixture.request Fixture.response
         = Throw (TypeError (js "Cannot read property 'req' of undefined"))
             (mkResponse 200 ∅ None Fixture.application Fixture.request
                [EvStat (js "/www/assets")])
  | inl _ => False
  end.
Proof. vm_compute. split; reflexivity. Qed.

(** ** [jsonp] *)

Lemma restrict_callback_safe (callback : jstring) :
  Forall (fun u => callback_safe u = true) (restrict_callback callback).
Proof.
  apply List.Forall_forall. intros u Hu.
  apply List.filter_In in Hu. tauto.
Qed.

Lemma replace_unit_In (c : N) (by_ s : jstring) (u : N) :
  In u (replace_unit c by_ s) -> In u by_ \/ (In u s /\ u <> c).
Proof.
  unfold replace_unit. intros Hu.
  apply List.in_flat_map in Hu as (d & Hd & Hu).
  destruct (d =? c)%N eqn:E; [by left|].
  right. destruct Hu as [<-|[]]. split; [exact Hd|].
  by apply N.eqb_neq.
Qed.

Lemma escape_separators_clean (text : jstring) :
  Forall (fun u => u <> 8232%N /\ u <> 8233%N) (escape_separators text).
Proof.
  apply List.Forall_forall. intros u Hu. unfold escape_separators in Hu.
  apply replace_unit_In in Hu as [Hu|[Hu Hne]].
  - vm_compute in Hu. split; intros ->; intuition discriminate.
  - apply replace_unit_In in Hu as [Hu|[Hu Hne']]; [|by split].
    vm_compute in Hu. split; intros ->; intuition discriminate.
Qed.

Lemma replace_unit_absent (c : N) (by_ s : jstring) :
  Forall (fun u => u <> c) s -> replace_unit c by_ s = s.
Proof.
  unfold replace_unit. induction 1 as [|d rest Hd _ IH]; [reflexivity|].
  cbn [List.flat_map]. rewrite IH.
  apply N.eqb_neq in Hd. by rewrite Hd.
Qed.

(** A text without separators goes through unchanged. *)
Lemma escape_separators_id (text : jstring) :
  Forall (fun u => u <> 8232%N /\ u <> 8233%N) text ->
  escape_separators text = text.
Proof.
  intros H. unfold escape_separators.
  rewrite (replace_unit_absent 8232); [apply replace_unit_absent|];
    eapply List.Forall_impl; try exact H; cbn; tauto.
Qed.




(** A callback [cb()] loses its parentheses. *)
Example jsonp_callback_example :
  let jsonp_response :=
    mkResponse 200 ∅ None Fixture.application Fixture.jsonp_request [] in
  let r' := final (jsonp Fixture.deps (RNumber 1) jsonp_response) in
  body r' = Some (BodyString (js "/**/ typeof cb === 'function' && cb(1);"))
  /\ get (js "X-Content-Type-Options") r' = js "nosniff"
  /\ get (js "Content-Type") r' = js "text/javascript; charset=utf-8".
Proof. repeat split; vm_compute; reflexivity. Qed.

(** * Further properties *)

(** ** Header fields *)

Lemma get_set_headers (field : jstring) (h : Headers.t) (r : Response) :
  get field (set_headers h r) = default [] (h !! toLowerCase field).
Proof. by rewrite get_run. Qed.


(** X1: header names are case-insensitive for [set] and [get]: two names
    with the same lower-case form are set alike and read alike, and what
    [set] stored under one is what [get] answers under the other.  The
    name is one [Headers] accepts and the stored value one it keeps as
    given. *)
Theorem header_names_ignore_case (D : Deps) (field field' value : jstring)
    (r : Response) (Hsame : toLowerCase field = toLowerCase field')
    (Hname : Headers.legal_name field = true)
    (Hvalue : Headers.plain_value
                (if eqb (toLowerCase field) (js "content-type")
                 then default [] (contentType D value) else value) = true) :
  set D field value r = set D field' value r
  /\ get field r = get field' r
  /\ get field' (final (set D field value r))
     = (if eqb (toLowerCase field) (js "content-type")
        then default [] (contentType D value) else value).
Proof.
  rewrite !set_run, !get_run, Hsame. repeat split.
  cbn [final headers set_headers]. by rewrite lookup_insert_eq.
Qed.

Lemma header_names_ignore_case_witness :
  get (js "x-powered-by")
    (final (set Fixture.deps (js "X-Powered-By") (js "Opine") Fixture.response))
  = js "Opine".
Proof.
  exact (proj2 (proj2 (header_names_ignore_case Fixture.deps (js "X-Powered-By")
                         (js "x-powered-by") (js "Opine") Fixture.response
                         eq_refl eq_refl eq_refl))).
Defined.





(** X4: [append] adds to a header instead of replacing it: on an absent
    field it stores the value, on a present one the old value, a comma
    and a space, and the new value.  It stores the value for
    [Content-Type] too, where [set] stores the MIME lookup.  The name is
    one [Headers] accepts and the value one it keeps as given. *)
Theorem append_accumulates (field value : jstring) (r : Response)
    (Hname : Headers.legal_name field = true)
    (Hvalue : Headers.plain_value value = true) :
  get field (final (append field value r))
  = match headers r !! toLowerCase field with
    | Some old => old ++ js ", " ++ value
    | None => value
    end.
Proof.
  unfold append, Headers.append. run. rewrite get_set_headers.
  destruct (headers r !! toLowerCase field); by rewrite lookup_insert_eq.
Qed.

Lemma append_accumulates_witness :
  get (js "Warning")
    (final (append (js "Warning") (js "199 Miscellaneous warning")
              (final (append (js "Warning") (js "110 Response is stale")
                        Fixture.response))))
  = js "110 Response is stale, 199 Miscellaneous warning".
Proof.
  rewrite (append_accumulates (js "Warning") (js "199 Miscellaneous warning")
             _ eq_refl eq_refl).
  vm_compute. reflexivity.
Defined.

(** X5: [attachment] always sets [Content-Disposition]; a non-empty file
    name also replaces [Content-Type] by the lookup of its extension, or
    by the empty string when the extension is unknown, while the empty
    name leaves [Content-Type] alone. *)
Theorem attachment_sets_type_from_extension (D : Deps) (filename : jstring)
    (r : Response) :
  let r' := final (attachment D filename r) in
  get (js "Content-Disposition") r'
  = contentDisposition D (js "attachment") filename
  /\ get (js "Content-Type") r'
     = (if nonempty filename then default [] (contentType D (extname D filename))
        else get (js "Content-Type") r)
  /\ status r' = status r /\ body r' = body r /\ log r' = log r.
Proof.
  unfold attachment. run.
  destruct (nonempty filename); [rewrite type_run|]; rewrite set_run;
    change (eqb (toLowerCase (js "Content-Disposition")) (js "content-type"))
      with false;
    change (toLowerCase (js "Content-Disposition")) with (js "content-disposition");
    cbn [final headers set_headers status body log];
    rewrite !get_set_headers;
    change (toLowerCase (js "Content-Disposition")) with (js "content-disposition");
    change (toLowerCase (js "Content-Type")) with (js "content-type");
    rewrite lookup_insert_eq, lookup_insert_ne by (vm_compute; discriminate).
  - by rewrite lookup_insert_eq.
  - by rewrite get_run.
Qed.

(** ** [links] *)




Lemma links_run (D : Deps) (entries : list (jstring * jstring)) (r : Response) :
  links D entries r
  = Return tt
      (set_headers
         (<[js "link" :=
              (if nonempty (get (js "Link") r) then get (js "Link") r ++ js ", "
               else get (js "Link") r)
              ++ join_with (js ", ") (List.map link_entry entries)]> (headers r))
         r).
Proof. unfold links. run. by rewrite set_run. Qed.



(** X7: [links] of no entry is not a no-op on a response without [Link]
    value: it leaves a [Link] header, with the empty string as value. *)
Theorem links_of_nothing (D : Deps) (r : Response)
    (Hnone : nonempty (get (js "Link") r) = false) :
  headers (final (links D [] r)) !! js "link" = Some []
  /\ forall other, toLowerCase other <> js "link" ->
       get other (final (links D [] r)) = get other r.
Proof.
  rewrite links_run, Hnone. cbn [final headers set_headers join_with List.map].
  rewrite List.app_nil_r. apply nonempty_false in Hnone. rewrite Hnone.
  split; [apply lookup_insert_eq|].
  intros other Hother. rewrite !get_run. cbn [headers set_headers].
  by rewrite lookup_insert_ne.
Qed.

Lemma links_of_nothing_witness :
  headers Fixture.response !! js "link" = None
  /\ headers (final (links Fixture.deps [] Fixture.response)) !! js "link"
     = Some [].
Proof.
  split; [reflexivity|].
  exact (proj1 (links_of_nothing Fixture.deps Fixture.response eq_refl)).
Defined.

(** ** What [send] reads and writes *)

Lemma etag_returns (D : Deps) (chunk : Chunk) (r : Response) :
  etag D chunk r = Return tt (final (etag D chunk r)).
Proof. rewrite etag_run. by destruct (etag_fn (app r)). Qed.

Lemma send_validators_exact (D : Deps) (chunk : DenoResponseBody) (r : Response) :
  send_validators D chunk r = Return tt (validated D chunk r).
Proof.
  unfold send_validators, validated. run.
  destruct chunk as [s|b|id].
  - destruct (nonempty (get (js "Content-Type") r)); cbn [negb];
      [|rewrite type_run];
      match goal with
      | |- context [nonempty (get (js "ETag") ?r1)] =>
          destruct (nonempty (get (js "ETag") r1)); cbn [negb];
            [reflexivity|apply etag_returns]
      end.
  - destruct (nonempty (get (js "ETag") r)); cbn [negb];
      [reflexivity|apply etag_returns].
  - by destruct (nonempty (get (js "ETag") r)).
Qed.

Lemma send_chunk_exact (D : Deps) (chunk : DenoResponseBody) (r : Response) :
  send_chunk D chunk r = send_transmit chunk (validated D chunk r).
Proof. unfold send_chunk. run. by rewrite send_validators_exact. Qed.

Lemma send_classified (D : Deps) (b : ResponseBody) (r : Response) :
  send D b r
  = match classified D b r with
    | Some (chunk, r0) => send_chunk D chunk r0
    | None => Throw (TypeError (js "Cannot read property 'read' of null")) r
    end.
Proof.
  destruct b; cbn [send classified]; try reflexivity;
    try (rewrite json_run; cbn [send];
         by destruct (nonempty (get (js "Content-Type") r)));
    run; destruct (nonempty (get (js "Content-Type") r)); cbn [negb];
    by rewrite ?type_run.
Qed.

(** The response after the first half of [send]: only [content-type] and
    [etag] may differ, and the log has grown by calls of the ETag function
    only. *)
Lemma validated_shape (D : Deps) (chunk : DenoResponseBody) (r : Response) :
  let v := validated D chunk r in
  status v = status r /\ body v = body r /\ app v = app r /\ req v = req r
  /\ (forall k, k <> js "content-type" -> k <> js "etag" ->
        headers v !! k = headers r !! k)
  /\ exists cs, log v = log r ++ List.map EvEtagFn cs.
Proof.
  assert (Hetag : forall c r1,
            status r1 = status r -> body r1 = body r -> app r1 = app r ->
            req r1 = req r -> log r1 = log r ->
            (forall k, k <> js "content-type" -> k <> js "etag" ->
               headers r1 !! k = headers r !! k) ->
            let v := final (etag D c r1) in
            status v = status r /\ body v = body r /\ app v = app r
            /\ req v = req r
            /\ (forall k, k <> js "content-type" -> k <> js "etag" ->
                  headers v !! k = headers r !! k)
            /\ exists cs, log v = log r ++ List.map EvEtagFn cs).
  { intros c r1 Hs Hb Ha Hr Hl Hh. rewrite etag_run.
    destruct (etag_fn (app r1)) as [f|]; cbn.
    - repeat split; try done.
      + intros k Hk1 Hk2. destruct (nonempty (f c)); [|by apply Hh].
        rewrite lookup_insert_ne by done. by apply Hh.
      + exists [c]. by rewrite Hl.
    - repeat split; try done. exists []. by rewrite Hl, List.app_nil_r. }
  assert (Hsame : forall r1,
            status r1 = status r -> body r1 = body r -> app r1 = app r ->
            req r1 = req r -> log r1 = log r ->
            (forall k, k <> js "content-type" -> k <> js "etag" ->
               headers r1 !! k = headers r !! k) ->
            status r1 = status r /\ body r1 = body r /\ app r1 = app r
            /\ req r1 = req r
            /\ (forall k, k <> js "content-type" -> k <> js "etag" ->
                  headers r1 !! k = headers r !! k)
            /\ exists cs, log r1 = log r ++ List.map EvEtagFn cs).
  { intros r1 Hs Hb Ha Hr Hl Hh. repeat split; try done.
    exists []. by rewrite Hl, List.app_nil_r. }
  unfold validated.
  destruct chunk as [s|b|id].
  - destruct (nonempty (get (js "Content-Type") r));
      match goal with
      | |- context [nonempty (get (js "ETag") ?r1)] =>
          destruct (nonempty (get (js "ETag") r1));
            [apply Hsame|apply Hetag]; try done;
            intros k Hk1 Hk2; cbn; by rewrite ?lookup_insert_ne
      end.
  - destruct (nonempty (get (js "ETag") r)); [apply Hsame|apply Hetag]; done.
  - destruct (nonempty (get (js "ETag") r)); apply Hsame; done.
Qed.

Lemma classified_shape (D : Deps) (b : ResponseBody) (r : Response)
    (chunk : DenoResponseBody) (r0 : Response) :
  classified D b r = Some (chunk, r0) ->
  status r0 = status r /\ body r0 = body r /\ app r0 = app r /\ req r0 = req r
  /\ log r0 = log r
  /\ (forall k, k <> js "content-type" -> headers r0 !! k = headers r !! k)
  /\ (nonempty (get (js "Content-Type") r) = true -> r0 = r).
Proof.
  intros H.
  destruct b; cbn [classified] in H; try discriminate;
    injection H as <- <-;
    try (repeat split; done);
    destruct (nonempty (get (js "Content-Type") r)); repeat split; try done;
    intros k Hk; cbn; by rewrite lookup_insert_ne.
Qed.

Lemma omap_events_etag {A} (f : Event -> option A) (cs : list Chunk) :
  (forall c, f (EvEtagFn c) = None) -> omap f (List.map EvEtagFn cs) = [].
Proof. intros Hf. induction cs as [|c cs IH]; [done|]. cbn. by rewrite Hf. Qed.

(** [send] as a whole: where it returns, the chunk and the response it
    classified, the response it leaves, and the single transmission. *)
Lemma send_shape (D : Deps) (b : ResponseBody) (r r' : Response) :
  send D b r = Return tt r' ->
  exists chunk r0 cs,
    classified D b r = Some (chunk, r0)
    /\ send_transmit chunk (validated D chunk r0) = Return tt r'
    /\ log r'
       = (log r ++ List.map EvEtagFn cs)
           ++ [EvRespond (mkTransmission (status r') (headers r') (body r'))]
    /\ log (validated D chunk r0) = log r ++ List.map EvEtagFn cs
    /\ app r' = app r /\ req r' = req r.
Proof.
  rewrite send_classified. intros H.
  destruct (classified D b r) as [[chunk r0]|] eqn:Hc; [|discriminate].
  rewrite send_chunk_exact in H.
  destruct (classified_shape D b r chunk r0 Hc) as (_ & _ & Ha0 & Hr0 & Hl0 & _).
  destruct (validated_shape D chunk r0) as (_ & _ & Ha & Hr & _ & cs & Hl).
  exists chunk, r0, cs. split; [done|]. split; [done|].
  rewrite send_transmit_run in H. injection H as <-.
  cbn [log status headers body app req]. rewrite Hl, Hl0, Ha, Hr, Ha0, Hr0. done.
Qed.

Lemma without_entity_lookup (h : Headers.t) (k : jstring) :
  ~ In k entity_fields -> without_entity h !! k = h !! k.
Proof.
  intros Hk. unfold without_entity, Headers.delete.
  change (toLowerCase (js "Content-Type")) with (js "content-type").
  change (toLowerCase (js "Content-Length")) with (js "content-length").
  change (toLowerCase (js "Transfer-Encoding")) with (js "transfer-encoding").
  rewrite !lookup_delete_ne; [done| | |]; intros <-; apply Hk; cbn; tauto.
Qed.

Lemma send_frame (D : Deps) (b : ResponseBody)
    (r r' : Response) (k : jstring)
    (Hsend : send D b r = Return tt r') (Hk : ~ In k entity_fields) :
  headers r' !! k = headers r !! k
  /\ transmissions (log r')
     = transmissions (log r)
         ++ [mkTransmission (status r') (headers r') (body r')].
Proof.
  destruct (send_shape D b r r' Hsend) as (chunk & r0 & cs & Hc & Ht & Hl & _).
  split.
  - destruct (classified_shape D b r chunk r0 Hc) as (_ & _ & _ & _ & _ & Hh0 & _).
    destruct (validated_shape D chunk r0) as (_ & _ & _ & _ & Hh & _).
    assert (Hv : headers (validated D chunk r0) !! k = headers r !! k).
    { rewrite Hh, Hh0; [done| | |]; intros ->; apply Hk; cbn; tauto. }
    rewrite send_transmit_run in Ht. injection Ht as <-. cbn [headers].
    destruct (_ || _); [by rewrite without_entity_lookup|done].
  - rewrite Hl, !transmissions_app. unfold transmissions at 2.
    rewrite omap_events_etag by done. by rewrite List.app_nil_r.
Qed.

(** X8: [send] writes no header field other than [content-type], [etag],
    [content-length] and [transfer-encoding]; and what it hands to
    [req.respond], once, is the status, the headers and the body it
    leaves on the response. *)
Theorem send_touches_entity_fields_only (D : Deps) (b : ResponseBody)
    (r r' : Response) (k : jstring)
    (Hsend : send D b r = Return tt r') (Hk : ~ In k entity_fields) :
  headers r' !! k = headers r !! k
  /\ transmissions (log r')
     = transmissions (log r)
         ++ [mkTransmission (status r') (headers r') (body r')].
Proof. by eapply send_frame. Qed.

Lemma send_touches_entity_fields_only_witness :
  let r := final (set Fixture.deps (js "X-Powered-By") (js "Opine") Fixture.response) in
  let r' := final (send Fixture.deps (RNumber 42) r) in
  headers r' !! js "x-powered-by" = Some (js "Opine").
Proof.
  intros r r'.
  assert (Hk : ~ In (js "x-powered-by") entity_fields).
  { intros H. vm_compute in H. intuition discriminate. }
  assert (Hsend : send Fixture.deps (RNumber 42) r = Return tt r')
    by (vm_compute; reflexivity).
  rewrite (proj1 (send_touches_entity_fields_only Fixture.deps (RNumber 42) r r'
                    (js "x-powered-by") Hsend Hk)).
  vm_compute. reflexivity.
Defined.

Lemma get_headers_eq (field : jstring) (r1 r2 : Response) :
  headers r1 !! toLowerCase field = headers r2 !! toLowerCase field ->
  get field r1 = get field r2.
Proof. intros H. rewrite !get_run. f_equal. exact H. Qed.

Lemma validated_content_type (D : Deps) (chunk : DenoResponseBody) (r : Response) :
  nonempty (get (js "Content-Type") r) = true ->
  headers (validated D chunk r) !! js "content-type"
  = headers r !! js "content-type".
Proof.
  intros Hct. unfold validated.
  assert (Hetag : forall c,
            headers (final (etag D c r)) !! js "content-type"
            = headers r !! js "content-type").
  { intros c. rewrite etag_run. destruct (etag_fn (app r)) as [f|]; [|done].
    cbn. destruct (nonempty (f c)); [|done]. by rewrite lookup_insert_ne. }
  destruct chunk; rewrite ?Hct; destruct (nonempty (get (js "ETag") r)); done.
Qed.

Lemma validated_etag_kept (D : Deps) (chunk : DenoResponseBody) (r : Response) :
  nonempty (get (js "ETag") r) = true ->
  log (validated D chunk r) = log r
  /\ headers (validated D chunk r) !! js "etag" = headers r !! js "etag".
Proof.
  intros Het. unfold validated.
  destruct chunk; rewrite ?Het; try done.
  destruct (nonempty (get (js "Content-Type") r)); [by rewrite Het|].
  match goal with
  | |- context [nonempty (get (js "ETag") ?r1)] =>
      replace (nonempty (get (js "ETag") r1)) with true
  end; [split; [done|cbn; by rewrite lookup_insert_ne]|].
  symmetry. etransitivity; [|exact Het]. f_equal. apply get_headers_eq. cbn.
  by rewrite lookup_insert_ne.
Qed.

Lemma validated_etag_computed (D : Deps) (chunk : DenoResponseBody)
    (subject : Chunk) (f : Chunk -> jstring) (r : Response) :
  nonempty (get (js "ETag") r) = false ->
  etag_fn (app r) = Some f ->
  (match chunk with
   | BodyString s => subject = ChunkString s
   | BodyBytes b => subject = ChunkBytes b
   | BodyReader _ => False
   end) ->
  log (validated D chunk r) = log r ++ [EvEtagFn subject]
  /\ get (js "ETag") (validated D chunk r) = f subject.
Proof.
  intros Het Hf Hsub.
  assert (Hrun : forall r1,
            app r1 = app r -> log r1 = log r ->
            nonempty (get (js "ETag") r1) = false ->
            log (final (etag D subject r1)) = log r ++ [EvEtagFn subject]
            /\ get (js "ETag") (final (etag D subject r1)) = f subject).
  { intros r1 Ha Hl Het1. rewrite etag_run, Ha, Hf. cbn [final log].
    split; [by rewrite Hl|].
    rewrite get_run. cbn [headers].
    change (toLowerCase (js "ETag")) with (js "etag").
    destruct (nonempty (f subject)) eqn:Hn.
    - by rewrite lookup_insert_eq.
    - apply nonempty_false in Hn. rewrite Hn.
      apply nonempty_false in Het1. by rewrite get_run in Het1. }
  unfold validated. destruct chunk as [s|b|id]; [| |done]; subst subject.
  - destruct (nonempty (get (js "Content-Type") r)).
    + rewrite Het. by apply Hrun.
    + match goal with
      | |- context [nonempty (get (js "ETag") ?r1)] =>
          assert (Het1 : nonempty (get (js "ETag") r1) = false)
      end.
      { etransitivity; [|exact Het]. f_equal. apply get_headers_eq. cbn.
        by rewrite lookup_insert_ne. }
      rewrite Het1. by apply Hrun.
  - rewrite Het. by apply Hrun.
Qed.

Lemma without_entity_etag (h : Headers.t) :
  without_entity h !! js "etag" = h !! js "etag".
Proof.
  unfold without_entity, Headers.delete.
  change (toLowerCase (js "Content-Type")) with (js "content-type").
  change (toLowerCase (js "Content-Length")) with (js "content-length").
  change (toLowerCase (js "Transfer-Encoding")) with (js "transfer-encoding").
  by rewrite !lookup_delete_ne.
Qed.

Lemma send_content_type_kept (D : Deps) (b : ResponseBody)
    (r r' : Response)
    (Hset : nonempty (get (js "Content-Type") r) = true)
    (Hsend : send D b r = Return tt r')
    (H204 : status r' <> 204) (H304 : status r' <> 304) :
  get (js "Content-Type") r' = get (js "Content-Type") r.
Proof.
  destruct (send_shape D b r r' Hsend) as (chunk & r0 & cs & Hc & Ht & _).
  destruct (classified_shape D b r chunk r0 Hc) as (_ & _ & _ & _ & _ & _ & Hr0).
  rewrite (Hr0 Hset) in Ht.
  apply get_headers_eq. change (toLowerCase (js "Content-Type")) with (js "content-type").
  rewrite <- (validated_content_type D chunk r Hset).
  rewrite send_transmit_run in Ht. injection Ht as <-.
  cbn [status headers] in *.
  destruct (_ =? 204) eqn:E1; [apply Z.eqb_eq in E1; contradiction|].
  destruct (_ =? 304) eqn:E2; [apply Z.eqb_eq in E2; contradiction|].
  reflexivity.
Qed.

(** X9: a [Content-Type] set before [send] is the one transmitted,
    whatever the kind of body, unless the final status is 204 or 304:
    the defaults of [send] and [json] apply to a response without
    [Content-Type] only. *)
Theorem send_keeps_explicit_content_type (D : Deps) (b : ResponseBody)
    (r r' : Response)
    (Hset : nonempty (get (js "Content-Type") r) = true)
    (Hsend : send D b r = Return tt r')
    (H204 : status r' <> 204) (H304 : status r' <> 304) :
  get (js "Content-Type") r' = get (js "Content-Type") r.
Proof. by eapply send_content_type_kept. Qed.

Lemma send_keeps_explicit_content_type_witness :
  get (js "Content-Type")
    (final (send Fixture.deps (RObject (JObject [])) Fixture.typed_response))
  = js "text/plain; charset=utf-8".
Proof.
  assert (Hsend : send Fixture.deps (RObject (JObject [])) Fixture.typed_response
                  = Return tt (final (send Fixture.deps (RObject (JObject []))
                                        Fixture.typed_response)))
    by (vm_compute; reflexivity).
  rewrite (send_keeps_explicit_content_type Fixture.deps (RObject (JObject []))
             Fixture.typed_response _ eq_refl Hsend);
    [vm_compute; reflexivity|vm_compute; discriminate|vm_compute; discriminate].
Defined.

Lemma send_etag_kept (D : Deps) (b : ResponseBody) (r r' : Response)
    (Hset : nonempty (get (js "ETag") r) = true)
    (Hsend : send D b r = Return tt r') :
  get (js "ETag") r' = get (js "ETag") r
  /\ etag_calls (log r') = etag_calls (log r).
Proof.
  destruct (send_shape D b r r' Hsend) as (chunk & r0 & cs & Hc & Ht & Hl & Hlv & _).
  destruct (classified_shape D b r chunk r0 Hc) as (_ & _ & _ & _ & Hl0 & Hh0 & _).
  assert (Hset0 : nonempty (get (js "ETag") r0) = true).
  { etransitivity; [|exact Hset]. f_equal. apply get_headers_eq. by apply Hh0. }
  destruct (validated_etag_kept D chunk r0 Hset0) as (Hlog & Hh).
  split.
  - apply get_headers_eq. change (toLowerCase (js "ETag")) with (js "etag").
    rewrite <- (Hh0 (js "etag")) by done. rewrite <- Hh.
    rewrite send_transmit_run in Ht. injection Ht as <-. cbn [headers].
    destruct (_ || _); [apply without_entity_etag|done].
  - rewrite Hl, <- Hlv, Hlog, Hl0. unfold etag_calls.
    rewrite omap_app. cbn. by rewrite List.app_nil_r.
Qed.

(** X10: an [ETag] set before [send] is kept, and the configured ETag
    function is not called. *)
Theorem send_keeps_existing_etag (D : Deps) (b : ResponseBody) (r r' : Response)
    (Hset : nonempty (get (js "ETag") r) = true)
    (Hsend : send D b r = Return tt r') :
  get (js "ETag") r' = get (js "ETag") r
  /\ etag_calls (log r') = etag_calls (log r).
Proof. by eapply send_etag_kept. Qed.

Lemma send_keeps_existing_etag_witness :
  get (js "ETag") (final (send Fixture.deps (RString (js "hi")) Fixture.tagged_response))
  = js "v1".
Proof.
  assert (Hsend : send Fixture.deps (RString (js "hi")) Fixture.tagged_response
                  = Return tt (final (send Fixture.deps (RString (js "hi"))
                                        Fixture.tagged_response)))
    by (vm_compute; reflexivity).
  rewrite (proj1 (send_keeps_existing_etag Fixture.deps (RString (js "hi"))
                    Fixture.tagged_response _ eq_refl Hsend)).
  vm_compute. reflexivity.
Defined.

Lemma sent_chunk_classified (D : Deps) (b : ResponseBody) (r : Response)
    (subject : Chunk) :
  sent_chunk D b r = Some subject ->
  exists chunk r0,
    classified D b r = Some (chunk, r0)
    /\ match chunk with
       | BodyString s => subject = ChunkString s
       | BodyBytes bytes => subject = ChunkBytes bytes
       | BodyReader _ => False
       end.
Proof.
  destruct b; cbn [sent_chunk classified]; intros H; try discriminate;
    injection H as <-; do 2 eexists; split; reflexivity.
Qed.

Lemma send_etag_computed (D : Deps) (b : ResponseBody) (r r' : Response)
    (f : Chunk -> jstring) (subject : Chunk)
    (Hunset : nonempty (get (js "ETag") r) = false)
    (Hfn : etag_fn (app r) = Some f)
    (Hsubject : sent_chunk D b r = Some subject)
    (Hsend : send D b r = Return tt r') :
  etag_calls (log r') = etag_calls (log r) ++ [subject]
  /\ get (js "ETag") r' = f subject.
Proof.
  destruct (send_shape D b r r' Hsend) as (chunk & r0 & cs & Hc & Ht & Hl & Hlv & _).
  destruct (sent_chunk_classified D b r subject Hsubject)
    as (chunk' & r0' & Hc' & Hsub).
  rewrite Hc in Hc'. injection Hc' as <- <-.
  destruct (classified_shape D b r chunk r0 Hc) as (_ & _ & Ha0 & _ & Hl0 & Hh0 & _).
  assert (Hunset0 : nonempty (get (js "ETag") r0) = false).
  { etransitivity; [|exact Hunset]. f_equal. apply get_headers_eq. by apply Hh0. }
  rewrite <- Ha0 in Hfn.
  destruct (validated_etag_computed D chunk subject f r0 Hunset0 Hfn Hsub)
    as (Hlog & Hget).
  split.
  - rewrite Hl, <- Hlv, Hlog, Hl0. unfold etag_calls.
    rewrite !omap_app. cbn. by rewrite List.app_nil_r.
  - rewrite <- Hget. apply get_headers_eq.
    change (toLowerCase (js "ETag")) with (js "etag").
    rewrite send_transmit_run in Ht. injection Ht as <-. cbn [headers].
    destruct (_ || _); [apply without_entity_etag|done].
Qed.

(** X11: when no [ETag] is set and an ETag function is configured, [send]
    calls it once, on what it sends: the string, the bytes, or the JSON
    text for a value it passes to [json].  The [ETag] header then reads
    as the answer of the function. *)
Theorem send_tags_what_it_sends (D : Deps) (b : ResponseBody) (r r' : Response)
    (f : Chunk -> jstring) (subject : Chunk)
    (Hunset : nonempty (get (js "ETag") r) = false)
    (Hfn : etag_fn (app r) = Some f)
    (Hsubject : sent_chunk D b r = Some subject)
    (Hsend : send D b r = Return tt r') :
  etag_calls (log r') = etag_calls (log r) ++ [subject]
  /\ get (js "ETag") r' = f subject.
Proof. by eapply send_etag_computed. Qed.

Lemma send_tags_what_it_sends_witness :
  let r' := final (send Fixture.deps (RObject (JObject [])) Fixture.response) in
  etag_calls (log r') = [ChunkString (js "{}")]
  /\ get (js "ETag") r' = js "W/" ++ dquote ++ js "2" ++ dquote.
Proof.
  intros r'.
  assert (Hsend : send Fixture.deps (RObject (JObject [])) Fixture.response
                  = Return tt r') by (vm_compute; reflexivity).
  exact (send_tags_what_it_sends Fixture.deps (RObject (JObject []))
           Fixture.response r' Fixture.etagFn (ChunkString (js "{}"))
           eq_refl eq_refl eq_refl Hsend).
Defined.

(** X12: for a [HEAD] request [send] stores no body: the body of the
    response is the one it had, and that is what is transmitted. *)
Theorem send_head_stores_no_body (D : Deps) (b : ResponseBody) (r r' : Response)
    (Hhead : method (req r) = js "HEAD")
    (Hsend : send D b r = Return tt r') :
  body r' = body r
  /\ transmissions (log r')
     = transmissions (log r) ++ [mkTransmission (status r') (headers r') (body r)].
Proof.
  destruct (send_shape D b r r' Hsend) as (chunk & r0 & cs & Hc & Ht & Hl & _).
  destruct (classified_shape D b r chunk r0 Hc) as (_ & Hb0 & _ & Hr0 & _).
  destruct (validated_shape D chunk r0) as (_ & Hb & _ & Hr & _).
  assert (Hbody : body r' = body r).
  { rewrite send_transmit_run in Ht. injection Ht as <-. cbn [body].
    rewrite Hr, Hr0, Hhead. change (eqb (js "HEAD") (js "HEAD")) with true.
    cbn. by rewrite Hb, Hb0. }
  split; [exact Hbody|].
  rewrite Hl, !transmissions_app. unfold transmissions at 2.
  rewrite omap_events_etag by done. rewrite List.app_nil_r. cbn.
  by rewrite Hbody.
Qed.

Lemma send_head_stores_no_body_witness :
  transmissions
    (log (final (send Fixture.deps (RString (js "hi")) Fixture.head_response)))
  = [mkTransmission 200
       (headers (final (send Fixture.deps (RString (js "hi")) Fixture.head_response)))
       None].
Proof.
  assert (Hsend : send Fixture.deps (RString (js "hi")) Fixture.head_response
                  = Return tt (final (send Fixture.deps (RString (js "hi"))
                                        Fixture.head_response)))
    by (vm_compute; reflexivity).
  exact (proj2 (send_head_stores_no_body Fixture.deps (RString (js "hi"))
                  Fixture.head_response _ eq_refl Hsend)).
Defined.

(** X13: [sendStatus(code)], for a code other than 204 and 304 on a
    request that is neither fresh nor a [HEAD], transmits once, with that
    status, with the content type of [txt] in place of any set before,
    and with the text of the code in [STATUS_TEXT] as body, or the
    decimal code when the table has none. *)
Theorem sendStatus_transmits_status_text (D : Deps)
    (STATUS_TEXT : Z -> option jstring) (code : Z) (mime : jstring) (r : Response)
    (Hmime : contentType D (js "txt") = Some mime)
    (Hnonempty : nonempty mime = true)
    (H204 : code <> 204) (H304 : code <> 304)
    (Hfresh : forall s h, fresh (req r) s h = false)
    (Hmethod : eqb (method (req r)) (js "HEAD") = false) :
  let text := match STATUS_TEXT code with
              | Some t => if nonempty t then t else js (pretty code)
              | None => js (pretty code)
              end in
  exists r',
    sendStatus D STATUS_TEXT code r = Return tt r'
    /\ status r' = code
    /\ get (js "Content-Type") r' = mime
    /\ body r' = (if nonempty text then Some (BodyString text) else body r)
    /\ transmissions (log r')
       = transmissions (log r)
           ++ [mkTransmission (status r') (headers r') (body r')].
Proof.
  intros text. unfold sendStatus, setStatus. fold text. run.
  rewrite type_run, Hmime. cbn [default from_option id].
  set (r1 := set_headers _ (set_status code r)).
  assert (Hct : nonempty (get (js "Content-Type") r1) = true).
  { subst r1. rewrite get_run. cbn [headers set_headers].
    change (toLowerCase (js "Content-Type")) with (js "content-type").
    by rewrite lookup_insert_eq. }
  destruct (send_transmits_once D (RString text) r1) as (r' & t & Hsend & _).
  exists r'. split; [exact Hsend|].
  destruct (send_shape D (RString text) r1 r' Hsend)
    as (chunk & r0 & cs & Hc & Ht & Hl & _).
  cbn [classified] in Hc. injection Hc as <- <-.
  destruct (validated_shape D (BodyString text) r1)
    as (Hs & Hb & _ & Hr & _ & cs' & Hl').
  assert (Hctv := validated_content_type D (BodyString text) r1 Hct).
  rewrite send_transmit_run in Ht. injection Ht as Hr'.
  rewrite Hr, Hs in Hr'. subst r1. cbn [req status set_headers set_status] in Hr'.
  rewrite Hfresh, Hmethod in Hr'.
  replace ((code =? 204) || (code =? 304)) with false in Hr'
    by (symmetry; apply orb_false_iff; split; by apply Z.eqb_neq).
  rewrite Hb in Hr'. cbn [body set_headers set_status truthy_body] in Hr'.
  subst r'. cbn [status body log headers]. repeat split.
  - rewrite get_run. cbn [headers].
    change (toLowerCase (js "Content-Type")) with (js "content-type").
    etransitivity; [apply (f_equal (default [])); exact Hctv|].
    cbn [headers set_headers]. by rewrite lookup_insert_eq.
  - rewrite Hl', !transmissions_app. unfold transmissions at 2.
    rewrite omap_events_etag by done. by rewrite List.app_nil_r.
Qed.

Lemma sendStatus_transmits_status_text_witness :
  exists r',
    sendStatus Fixture.status_deps Fixture.STATUS_TEXT 404 Fixture.typed_response
    = Return tt r'
    /\ status r' = 404
    /\ get (js "Content-Type") r' = js "text/plain; charset=utf-8"
    /\ body r' = Some (BodyString (js "Not Found")).
Proof.
  assert (Hmime : contentType Fixture.status_deps (js "txt")
                  = Some (js "text/plain; charset=utf-8")).
  { vm_compute. reflexivity. }
  destruct (sendStatus_transmits_status_text Fixture.status_deps Fixture.STATUS_TEXT 404
              (js "text/plain; charset=utf-8") Fixture.typed_response
              Hmime eq_refl ltac:(discriminate) ltac:(discriminate)
              (fun _ _ => eq_refl) eq_refl)
    as (r' & H1 & H2 & H3 & H4 & _).
  exists r'. repeat split; assumption.
Defined.

(** ** [sendFile] and [download] *)

Lemma described_run (D : Deps) (path : jstring) (stats : FileInfo)
    (bytes : list N) (r : Response) :
  ((match mtime stats with
    | Some t => set D (js "Last-Modified") t
    | None => mret tt
    end);;
   et ← read (get (js "ETag"));
   (if negb (nonempty et) then etag D (ChunkFileInfo stats) else mret tt);;
   type D (extname D path);;
   send D (RUint8Array bytes)) r
  = send D (RUint8Array bytes) (described D path stats r).
Proof.
  unfold described. cbv zeta.
  set (r1 := match mtime stats with
             | Some t => set_headers (<[js "last-modified" := t]> (headers r)) r
             | None => r
             end).
  assert (H1 : (match mtime stats with
                | Some t => set D (js "Last-Modified") t
                | None => mret tt
                end) r = Return tt r1).
  { subst r1. destruct (mtime stats); [by rewrite set_run|reflexivity]. }
  run. rewrite H1.
  destruct (nonempty (get (js "ETag") r1)); cbn [negb];
    [|rewrite etag_returns]; by rewrite type_run.
Qed.

(** [sendFile] step by step; [file:] URLs go through [fromFileUrl]
    first. *)
Lemma sendFile_run (D : Deps) (path : jstring) (r : Response) :
  sendFile D path r
  = match (if startsWith path (js "file:") then fromFileUrl D path
           else inr path) with
    | inl e => Throw e r
    | inr p =>
        match readFile D p with
        | inl e => Throw e (logged [EvReadFile p] r)
        | inr bytes =>
            match stat D p with
            | inl e => Throw e (logged [EvReadFile p; EvStat p] r)
            | inr stats =>
                send D (RUint8Array bytes)
                  (described D p stats (logged [EvReadFile p; EvStat p] r))
            end
        end
    end.
Proof.
  assert (Htail : forall p,
            (emit (EvReadFile p);;
             bytes ← lift (readFile D p);
             emit (EvStat p);;
             stats ← lift (stat D p);
             (match mtime stats with
              | Some t => set D (js "Last-Modified") t
              | None => mret tt
              end);;
             et ← read (get (js "ETag"));
             (if negb (nonempty et) then etag D (ChunkFileInfo stats)
              else mret tt);;
             type D (extname D p);;
             send D (RUint8Array bytes)) r
            = match readFile D p with
              | inl e => Throw e (logged [EvReadFile p] r)
              | inr bytes =>
                  match stat D p with
                  | inl e => Throw e (logged [EvReadFile p; EvStat p] r)
                  | inr stats =>
                      send D (RUint8Array bytes)
                        (described D p stats (logged [EvReadFile p; EvStat p] r))
                  end
              end).
  { intros p. run.
    destruct (readFile D p) as [e|bytes]; [reflexivity|]. run.
    replace ((log r ++ [EvReadFile p]) ++ [EvStat p])
      with (log r ++ [EvReadFile p; EvStat p])
      by (by rewrite <- List.app_assoc).
    fold (logged [EvReadFile p; EvStat p] r).
    generalize (logged [EvReadFile p; EvStat p] r). intros r2.
    destruct (stat D p) as [e|stats]; [reflexivity|].
    apply described_run. }
  unfold sendFile.
  destruct (startsWith path (js "file:")); [|apply Htail].
  destruct (fromFileUrl D path) as [e|p]; [reflexivity|apply Htail].
Qed.

Lemma described_shape (D : Deps) (path : jstring) (stats : FileInfo) (r : Response) :
  let d := described D path stats r in
  status d = status r /\ body d = body r /\ app d = app r /\ req d = req r
  /\ (forall k, k <> js "content-type" -> k <> js "etag" ->
        k <> js "last-modified" -> headers d !! k = headers r !! k)
  /\ headers d !! js "content-type"
     = Some (default [] (contentType D (extname D path)))
  /\ exists cs, log d = log r ++ List.map EvEtagFn cs.
Proof.
  unfold described. cbv zeta.
  set (r1 := match mtime stats with
             | Some t => set_headers (<[js "last-modified" := t]> (headers r)) r
             | None => r
             end).
  assert (H1 : status r1 = status r /\ body r1 = body r /\ app r1 = app r
               /\ req r1 = req r /\ log r1 = log r
               /\ forall k, k <> js "last-modified" ->
                    headers r1 !! k = headers r !! k).
  { subst r1. destruct (mtime stats); repeat split; try done.
    intros k Hk. cbn. by rewrite lookup_insert_ne. }
  destruct H1 as (Hs & Hb & Ha & Hr & Hl & Hh).
  destruct (nonempty (get (js "ETag") r1)).
  - cbn. repeat split; try done.
    + intros k Hk1 Hk2 Hk3. rewrite lookup_insert_ne by done. by apply Hh.
    + by rewrite lookup_insert_eq.
    + exists []. by rewrite Hl, List.app_nil_r.
  - rewrite etag_run. destruct (etag_fn (app r1)) as [f|]; cbn.
    + repeat split; try done.
      * intros k Hk1 Hk2 Hk3. rewrite lookup_insert_ne by done.
        destruct (nonempty (f (ChunkFileInfo stats)));
          [rewrite lookup_insert_ne by done|]; by apply Hh.
      * by rewrite lookup_insert_eq.
      * exists [ChunkFileInfo stats]. by rewrite Hl.
    + repeat split; try done.
      * intros k Hk1 Hk2 Hk3. rewrite lookup_insert_ne by done. by apply Hh.
      * by rewrite lookup_insert_eq.
      * exists []. by rewrite Hl, List.app_nil_r.
Qed.

Lemma sendFile_throw_clean (D : Deps) (path : jstring) (r r' : Response)
    (e : JsError) :
  sendFile D path r = Throw e r' ->
  status r' = status r /\ headers r' = headers r /\ body r' = body r
  /\ app r' = app r /\ req r' = req r
  /\ (exists calls, log r' = log r ++ calls
                    /\ transmissions calls = [] /\ etag_calls calls = []
                    /\ next_calls calls = []).
Proof.
  rewrite sendFile_run.
  destruct (if startsWith path (js "file:") then fromFileUrl D path else inr path)
    as [e0|p].
  { intros H. injection H as <- <-. repeat split.
    exists []. by rewrite List.app_nil_r. }
  destruct (readFile D p) as [e1|bytes].
  { intros H. injection H as <- <-. repeat split. by eexists. }
  destruct (stat D p) as [e2|stats].
  { intros H. injection H as <- <-. repeat split. by eexists. }
  intros H.
  pose proof (send_transmits_once D (RUint8Array bytes)
                (described D p stats (logged [EvReadFile p; EvStat p] r)))
    as (r'' & t & Hsend & _).
  rewrite Hsend in H. discriminate H.
Qed.

(** X14: a [sendFile] that throws has changed nothing: the status, the
    headers and the body of the response are as before, nothing has been
    transmitted, the ETag function has not been called and neither has
    [next]. *)
Theorem sendFile_failure_is_clean (D : Deps) (path : jstring) (r r' : Response)
    (e : JsError) (Hfail : sendFile D path r = Throw e r') :
  status r' = status r /\ headers r' = headers r /\ body r' = body r
  /\ transmissions (log r') = transmissions (log r)
  /\ etag_calls (log r') = etag_calls (log r).
Proof.
  destruct (sendFile_throw_clean D path r r' e Hfail)
    as (Hs & Hh & Hb & _ & _ & calls & Hl & Ht & He & _).
  repeat split; try done.
  - by rewrite Hl, transmissions_app, Ht, List.app_nil_r.
  - rewrite Hl. unfold etag_calls in *. by rewrite omap_app, He, List.app_nil_r.
Qed.

Lemma sendFile_failure_is_clean_witness :
  let r' := final (sendFile Fixture.deps (js "/www/missing.txt") Fixture.typed_response) in
  headers r' = headers Fixture.typed_response
  /\ transmissions (log r') = [].
Proof.
  intros r'.
  assert (Hfail : sendFile Fixture.deps (js "/www/missing.txt") Fixture.typed_response
                  = Throw (Fixture.notFound (js "/www/missing.txt")) r')
    by (vm_compute; reflexivity).
  destruct (sendFile_failure_is_clean Fixture.deps (js "/www/missing.txt")
              Fixture.typed_response r' _ Hfail) as (_ & Hh & _ & Ht & _).
  split; [exact Hh|exact Ht].
Defined.

Lemma sendFile_return (D : Deps) (path : jstring) (r r' : Response) :
  sendFile D path r = Return tt r' ->
  exists p bytes stats,
    (if startsWith path (js "file:") then fromFileUrl D path else inr path) = inr p
    /\ readFile D p = inr bytes /\ stat D p = inr stats
    /\ send D (RUint8Array bytes)
         (described D p stats (logged [EvReadFile p; EvStat p] r))
       = Return tt r'.
Proof.
  rewrite sendFile_run.
  destruct (if startsWith path (js "file:") then fromFileUrl D path else inr path)
    as [e0|p]; [discriminate|].
  destruct (readFile D p) as [e1|bytes] eqn:Hread; [discriminate|].
  destruct (stat D p) as [e2|stats] eqn:Hstat; [discriminate|].
  intros H. by exists p, bytes, stats.
Qed.

Lemma sendFile_frame (D : Deps) (path : jstring) (r r' : Response) (k : jstring) :
  sendFile D path r = Return tt r' ->
  ~ In k (js "last-modified" :: entity_fields) ->
  headers r' !! k = headers r !! k
  /\ transmissions (log r')
     = transmissions (log r)
         ++ [mkTransmission (status r') (headers r') (body r')]
  /\ next_calls (log r') = next_calls (log r).
Proof.
  intros Hsend Hk.
  destruct (sendFile_return D path r r' Hsend) as (p & bytes & stats & _ & _ & _ & Hs).
  set (d := described D p stats (logged [EvReadFile p; EvStat p] r)) in *.
  destruct (described_shape D p stats (logged [EvReadFile p; EvStat p] r))
    as (_ & _ & _ & _ & Hh & _ & cs & Hl). fold d in Hh, Hl.
  assert (Hk' : ~ In k entity_fields) by (intros H; apply Hk; by right).
  destruct (send_frame D (RUint8Array bytes) d r' k Hs Hk') as (Hf & Ht).
  destruct (send_shape D (RUint8Array bytes) d r' Hs)
    as (_ & _ & cs' & _ & _ & Hl' & _).
  assert (Hpre : forall {A} (f : Event -> option A),
            (forall c, f (EvEtagFn c) = None) ->
            f (EvReadFile p) = None -> f (EvStat p) = None ->
            omap f (log d) = omap f (log r)).
  { intros A f Hf1 Hf2 Hf3. rewrite Hl. cbn [logged log].
    rewrite !omap_app, omap_events_etag by done. cbn.
    by rewrite Hf2, Hf3, !List.app_nil_r. }
  repeat split.
  - rewrite Hf, Hh; [done| | |]; intros ->; apply Hk; cbn; tauto.
  - rewrite Ht. f_equal. by apply Hpre.
  - rewrite Hl'. unfold next_calls. rewrite !omap_app, omap_events_etag by done.
    cbn. rewrite !List.app_nil_r. by apply Hpre.
Qed.

(** X15: a [sendFile] that returns has written no header field other
    than [last-modified], [content-type], [etag], [content-length] and
    [transfer-encoding]; it has transmitted once, the response as it
    leaves it, and it has not called [next]. *)
Theorem sendFile_touches_file_fields_only (D : Deps) (path : jstring)
    (r r' : Response) (k : jstring)
    (Hsend : sendFile D path r = Return tt r')
    (Hk : ~ In k (js "last-modified" :: entity_fields)) :
  headers r' !! k = headers r !! k
  /\ transmissions (log r')
     = transmissions (log r)
         ++ [mkTransmission (status r') (headers r') (body r')]
  /\ next_calls (log r') = next_calls (log r).
Proof. by apply (sendFile_frame D path). Qed.

Lemma sendFile_touches_file_fields_only_witness :
  let r := final (set Fixture.deps (js "Cache-Control") (js "no-store") Fixture.response) in
  let r' := final (sendFile Fixture.deps (js "/www/a.txt") r) in
  headers r' !! js "cache-control" = Some (js "no-store")
  /\ length (transmissions (log r')) = 1%nat.
Proof.
  intros r r'.
  assert (Hk : ~ In (js "cache-control") (js "last-modified" :: entity_fields)).
  { intros H. vm_compute in H. intuition discriminate. }
  assert (Hsend : sendFile Fixture.deps (js "/www/a.txt") r = Return tt r')
    by (vm_compute; reflexivity).
  destruct (sendFile_touches_file_fields_only Fixture.deps (js "/www/a.txt") r r'
              (js "cache-control") Hsend Hk) as (Hh & Ht & _).
  split; [rewrite Hh; vm_compute; reflexivity|].
  rewrite Ht. vm_compute. reflexivity.
Defined.

Lemma send_not_bare (D : Deps) (b : ResponseBody) (r r' : Response) :
  send D b r = Return tt r' -> status r' <> 204 -> status r' <> 304 ->
  exists chunk r0,
    classified D b r = Some (chunk, r0)
    /\ headers r' = headers (validated D chunk r0).
Proof.
  intros Hsend H204 H304.
  destruct (send_shape D b r r' Hsend) as (chunk & r0 & cs & Hc & Ht & _).
  exists chunk, r0. split; [exact Hc|].
  rewrite send_transmit_run in Ht. injection Ht as <-.
  cbn [status headers] in *.
  destruct (_ =? 204) eqn:E1; [apply Z.eqb_eq in E1; contradiction|].
  destruct (_ =? 304) eqn:E2; [apply Z.eqb_eq in E2; contradiction|].
  reflexivity.
Qed.

Lemma validated_bytes_content_type (D : Deps) (bytes : list N) (r : Response) :
  headers (validated D (BodyBytes bytes) r) !! js "content-type"
  = headers r !! js "content-type".
Proof.
  unfold validated. destruct (nonempty (get (js "ETag") r)); [done|].
  rewrite etag_run. destruct (etag_fn (app r)) as [f|]; [|done]. cbn.
  destruct (nonempty (f (ChunkBytes bytes))); [|done].
  by rewrite lookup_insert_ne.
Qed.

(** X16: [sendFile] decides the [Content-Type] from the extension of the
    path whatever was set before: the lookup of the extension, or, when
    that yields nothing, the lookup of [bin]; a final status of 204 or
    304 apart. *)
Theorem sendFile_types_by_extension (D : Deps) (path : jstring) (r r' : Response)
    (Hplain : startsWith path (js "file:") = false)
    (Hsend : sendFile D path r = Return tt r')
    (H204 : status r' <> 204) (H304 : status r' <> 304) :
  get (js "Content-Type") r'
  = (if nonempty (default [] (contentType D (extname D path)))
     then default [] (contentType D (extname D path))
     else default [] (contentType D (js "bin"))).
Proof.
  destruct (sendFile_return D path r r' Hsend) as (p & bytes & stats & Hp & _ & _ & Hs).
  rewrite Hplain in Hp. injection Hp as <-.
  set (d := described D path stats (logged [EvReadFile path; EvStat path] r)) in *.
  destruct (described_shape D path stats (logged [EvReadFile path; EvStat path] r))
    as (_ & _ & _ & _ & _ & Hct & _). fold d in Hct.
  assert (Hget : get (js "Content-Type") d
                 = default [] (contentType D (extname D path))).
  { rewrite get_run.
    change (toLowerCase (js "Content-Type")) with (js "content-type").
    etransitivity; [apply (f_equal (default [])); exact Hct|done]. }
  destruct (nonempty (default [] (contentType D (extname D path)))) eqn:Hn.
  - rewrite <- Hget. apply (send_content_type_kept D (RUint8Array bytes)); try done.
    by rewrite Hget.
  - destruct (send_not_bare D (RUint8Array bytes) d r' Hs H204 H304)
      as (chunk & r0 & Hc & Hh).
    cbn [classified] in Hc. rewrite Hget, Hn in Hc. injection Hc as <- <-.
    rewrite get_run, Hh.
    change (toLowerCase (js "Content-Type")) with (js "content-type").
    etransitivity;
      [apply (f_equal (default [])); apply validated_bytes_content_type|].
    cbn [headers set_headers]. by rewrite lookup_insert_eq.
Qed.

Lemma sendFile_types_by_extension_witness :
  get (js "Content-Type")
    (final (sendFile Fixture.deps (js "/www/a.txt") Fixture.typed_response))
  = js "text/plain; charset=utf-8".
Proof.
  assert (Hsend : sendFile Fixture.deps (js "/www/a.txt") Fixture.typed_response
                  = Return tt (final (sendFile Fixture.deps (js "/www/a.txt")
                                        Fixture.typed_response)))
    by (vm_compute; reflexivity).
  rewrite (sendFile_types_by_extension Fixture.deps (js "/www/a.txt")
             Fixture.typed_response _ eq_refl Hsend);
    [vm_compute; reflexivity|vm_compute; discriminate|vm_compute; discriminate].
Defined.

Lemma described_etag (D : Deps) (path : jstring) (stats : FileInfo)
    (f : Chunk -> jstring) (r : Response) :
  nonempty (get (js "ETag") r) = false ->
  etag_fn (app r) = Some f ->
  log (described D path stats r) = log r ++ [EvEtagFn (ChunkFileInfo stats)]
  /\ get (js "ETag") (described D path stats r) = f (ChunkFileInfo stats).
Proof.
  intros Het Hf. unfold described. cbv zeta.
  set (r1 := match mtime stats with
             | Some t => set_headers (<[js "last-modified" := t]> (headers r)) r
             | None => r
             end).
  assert (H1 : app r1 = app r /\ log r1 = log r
               /\ headers r1 !! js "etag" = headers r !! js "etag").
  { subst r1. destruct (mtime stats); repeat split; try done.
    cbn. by rewrite lookup_insert_ne. }
  destruct H1 as (Ha & Hl & Hh).
  assert (Het1 : nonempty (get (js "ETag") r1) = false).
  { etransitivity; [|exact Het]. f_equal. by apply get_headers_eq. }
  rewrite Het1, etag_run, Ha, Hf. cbn [final log set_headers headers].
  split; [by rewrite Hl|].
  rewrite get_run. cbn [headers set_headers].
  change (toLowerCase (js "ETag")) with (js "etag").
  rewrite lookup_insert_ne by done.
  destruct (nonempty (f (ChunkFileInfo stats))) eqn:Hn.
  - by rewrite lookup_insert_eq.
  - apply nonempty_false in Hn. rewrite Hn.
    apply nonempty_false in Het1. by rewrite get_run in Het1.
Qed.

(** X17: with an ETag function configured and no [ETag] set, [sendFile]
    tags the file by its metadata: the function is called on the
    [Deno.FileInfo], and on the bytes of the file only when its answer for
    the metadata was empty; the [ETag] header reads accordingly. *)
Theorem sendFile_tags_by_metadata (D : Deps) (path : jstring) (r : Response)
    (bytes : list N) (stats : FileInfo) (f : Chunk -> jstring)
    (Hplain : startsWith path (js "file:") = false)
    (Hread : readFile D path = inr bytes)
    (Hstat : stat D path = inr stats)
    (Hfn : etag_fn (app r) = Some f)
    (Hunset : nonempty (get (js "ETag") r) = false) :
  exists r',
    sendFile D path r = Return tt r'
    /\ etag_calls (log r')
       = etag_calls (log r)
           ++ ChunkFileInfo stats
              :: (if nonempty (f (ChunkFileInfo stats)) then []
                  else [ChunkBytes bytes])
    /\ get (js "ETag") r'
       = (if nonempty (f (ChunkFileInfo stats)) then f (ChunkFileInfo stats)
          else f (ChunkBytes bytes)).
Proof.
  rewrite sendFile_run, Hplain, Hread, Hstat.
  set (r2 := logged [EvReadFile path; EvStat path] r).
  assert (Hunset2 : nonempty (get (js "ETag") r2) = false) by exact Hunset.
  assert (Hfn2 : etag_fn (app r2) = Some f) by exact Hfn.
  destruct (described_etag D path stats f r2 Hunset2 Hfn2) as (Hl & Hget).
  set (d := described D path stats r2) in *.
  destruct (send_transmits_once D (RUint8Array bytes) d) as (r' & t & Hsend & _).
  exists r'. split; [exact Hsend|].
  assert (Hcalls : etag_calls (log d) = etag_calls (log r) ++ [ChunkFileInfo stats]).
  { rewrite Hl. unfold etag_calls. subst r2. cbn [logged log].
    rewrite !omap_app. cbn. by rewrite List.app_nil_r. }
  destruct (nonempty (f (ChunkFileInfo stats))) eqn:Hn.
  - assert (Hset : nonempty (get (js "ETag") d) = true) by by rewrite Hget.
    destruct (send_etag_kept D (RUint8Array bytes) d r' Hset Hsend) as (He & Hc).
    by rewrite He, Hc, Hget, Hcalls.
  - assert (Hempty : nonempty (get (js "ETag") d) = false) by by rewrite Hget.
    assert (Hfd : etag_fn (app d) = Some f).
    { destruct (described_shape D path stats r2) as (_ & _ & Ha & _). fold d in Ha.
      by rewrite Ha. }
    destruct (send_etag_computed D (RUint8Array bytes) d r' f (ChunkBytes bytes)
                Hempty Hfd eq_refl Hsend) as (Hc & He).
    rewrite He, Hc, Hcalls, <- List.app_assoc. done.
Qed.

Lemma sendFile_tags_by_metadata_witness :
  exists r',
    sendFile Fixture.deps (js "/www/a.txt") Fixture.response = Return tt r'
    /\ etag_calls (log r')
       = [ChunkFileInfo (mkFileInfo false (Some (js "Thu, 01 Jan 2015 00:00:00 GMT")) 5)]
    /\ get (js "ETag") r' = js "W/" ++ dquote ++ js "5" ++ dquote.
Proof.
  exact (sendFile_tags_by_metadata Fixture.deps (js "/www/a.txt") Fixture.response
           (js "hello")
           (mkFileInfo false (Some (js "Thu, 01 Jan 2015 00:00:00 GMT")) 5)
           Fixture.etagFn eq_refl eq_refl eq_refl eq_refl eq_refl).
Defined.

(** X18: a [download] that returns has transmitted once, and the
    response it transmitted carries the [Content-Disposition] of the
    attachment. *)
Theorem download_success_carries_disposition (D : Deps) (path : jstring)
    (filename : option jstring) (r r' : Response)
    (Hdone : download D path filename r = Return tt r') :
  get (js "Content-Disposition") r'
  = contentDisposition D (js "attachment") (basename D (or_else filename path))
  /\ transmissions (log r')
     = transmissions (log r)
         ++ [mkTransmission (status r') (headers r') (body r')].
Proof.
  rewrite download_run in Hdone.
  destruct (sendFile D path (with_attachment D path filename r)) as [[] r2|e r2] eqn:Hs;
    [|discriminate].
  injection Hdone as <-.
  assert (Hk : ~ In (js "content-disposition") (js "last-modified" :: entity_fields)).
  { intros H. vm_compute in H. intuition discriminate. }
  destruct (sendFile_frame D path _ r2 (js "content-disposition") Hs Hk)
    as (Hh & Ht & _).
  split; [|exact Ht].
  rewrite get_run.
  change (toLowerCase (js "Content-Disposition")) with (js "content-disposition").
  etransitivity; [apply (f_equal (default [])); exact Hh|].
  unfold with_attachment. cbn [headers set_headers]. by rewrite lookup_insert_eq.
Qed.

Lemma download_success_carries_disposition_witness :
  get (js "Content-Disposition")
    (final (download Fixture.deps (js "/www/a.txt") (Some (js "notes.txt"))
              Fixture.response))
  = js "attachment; filename=" ++ dquote ++ js "notes.txt" ++ dquote.
Proof.
  assert (Hdone : download Fixture.deps (js "/www/a.txt") (Some (js "notes.txt"))
                    Fixture.response
                  = Return tt (final (download Fixture.deps (js "/www/a.txt")
                                        (Some (js "notes.txt")) Fixture.response)))
    by (vm_compute; reflexivity).
  rewrite (proj1 (download_success_carries_disposition Fixture.deps (js "/www/a.txt")
                    (Some (js "notes.txt")) Fixture.response _ Hdone)).
  vm_compute. reflexivity.
Defined.

(** ** The handler of [serveStatic] *)

Lemma next_run (err : option JsError) (r : Response) :
  next err r = Return tt (logged [EvNext err] r).
Proof. reflexivity. Qed.

Lemma handle_other_methods (D : Deps) (rootPath : jstring)
    (options : Options) (onDirectory : DirectoryListener) (rq : Request)
    (r : Response)
    (Hget : eqb (method rq) (js "GET") = false)
    (Hhead : eqb (method rq) (js "HEAD") = false) :
  exists r',
    handle D rootPath options onDirectory rq r = Return tt r'
    /\ file_calls (log r') = file_calls (log r)
    /\ if fallthrough options then r' = logged [EvNext None] r
       else status r' = 405
            /\ get (js "Allow") r' = js "GET, HEAD"
            /\ body r' = body r
            /\ next_calls (log r') = next_calls (log r)
            /\ transmissions (log r')
               = transmissions (log r)
                   ++ [mkTransmission 405 (headers r') (body r)].
Proof.
  unfold handle. rewrite Hget, Hhead. cbn [negb andb].
  destruct (fallthrough options).
  - exists (logged [EvNext None] r). split; [apply next_run|].
    split; [|reflexivity].
    unfold file_calls. cbn [logged log]. rewrite omap_app. cbn.
    by rewrite List.app_nil_r.
  - run. rewrite set_run, end_run. cbn [truthy_body].
    change (eqb (toLowerCase (js "Allow")) (js "content-type")) with false.
    change (toLowerCase (js "Allow")) with (js "allow").
    eexists. split; [reflexivity|].
    cbn [status headers body log set_headers set_status].
    unfold file_calls, next_calls.
    rewrite !omap_app, transmissions_app. cbn.
    rewrite !List.app_nil_r. repeat split.
    rewrite get_run. cbn [headers].
    change (toLowerCase (js "Allow")) with (js "allow").
    by rewrite lookup_insert_eq.
Qed.

(** X19: a request whose method is neither [GET] nor [HEAD] never reaches
    the file system.  With [fallthrough] the handler only calls [next()];
    without it, it answers 405 with [Allow: GET, HEAD], transmits once and
    does not call [next]. *)
Theorem serveStatic_other_methods (D : Deps) (rootPath : jstring)
    (options : Options) (onDirectory : DirectoryListener) (rq : Request)
    (r : Response)
    (Hget : eqb (method rq) (js "GET") = false)
    (Hhead : eqb (method rq) (js "HEAD") = false) :
  exists r',
    handle D rootPath options onDirectory rq r = Return tt r'
    /\ file_calls (log r') = file_calls (log r)
    /\ if fallthrough options then r' = logged [EvNext None] r
       else status r' = 405
            /\ get (js "Allow") r' = js "GET, HEAD"
            /\ body r' = body r
            /\ next_calls (log r') = next_calls (log r)
            /\ transmissions (log r')
               = transmissions (log r)
                   ++ [mkTransmission 405 (headers r') (body r)].
Proof. by eapply handle_other_methods. Qed.

Lemma serveStatic_other_methods_witness :
  let r := mkResponse 200 ∅ None Fixture.application Fixture.post_request [] in
  exists r',
    handle Fixture.deps (js "/www") Fixture.strict_options
      (createNotFoundDirectoryListener Fixture.deps) Fixture.post_request r
    = Return tt r'
    /\ status r' = 405 /\ get (js "Allow") r' = js "GET, HEAD"
    /\ file_calls (log r') = [].
Proof.
  intros r.
  destruct (serveStatic_other_methods Fixture.deps (js "/www") Fixture.strict_options
              (createNotFoundDirectoryListener Fixture.deps) Fixture.post_request r
              eq_refl eq_refl) as (r' & Hrun & Hfiles & Hs & Ha & _).
  exists r'. repeat split; assumption.
Defined.

Lemma serve_path_missing (D : Deps) (rootPath : jstring) (options : Options)
    (onDirectory : DirectoryListener) (rq : Request) (path : jstring)
    (r : Response) (err : JsError) :
  stat D (join D rootPath path) = inl err ->
  serve_path D rootPath options onDirectory rq path r
  = Return tt
      (logged [EvStat (join D rootPath path);
               EvNext (if fallthrough options then None else Some err)] r).
Proof.
  intros Hstat. unfold serve_path, next. rewrite Hstat.
  destruct (fallthrough options); run; unfold logged; cbn [negb]; run;
    by rewrite <- List.app_assoc.
Qed.

Lemma handle_get_or_head (D : Deps) (rootPath : jstring) (options : Options)
    (onDirectory : DirectoryListener) (rq : Request) (r : Response) :
  eqb (method rq) (js "GET") || eqb (method rq) (js "HEAD") = true ->
  handle D rootPath options onDirectory rq r
  = serve_path D rootPath options onDirectory rq (relative_path rq) r.
Proof.
  intros H. unfold handle.
  destruct (eqb (method rq) (js "GET")), (eqb (method rq) (js "HEAD"));
    try reflexivity; discriminate H.
Qed.

(** X20: when [Deno.stat] fails on the resolved path, the handler leaves
    the response alone and calls [next] once: without argument under
    [fallthrough], with the error of [Deno.stat] otherwise. *)
Theorem serveStatic_missing_file (D : Deps) (rootPath : jstring)
    (options : Options) (onDirectory : DirectoryListener) (rq : Request)
    (r : Response) (err : JsError)
    (Hmethod : eqb (method rq) (js "GET") || eqb (method rq) (js "HEAD") = true)
    (Hstat : stat D (join D rootPath (relative_path rq)) = inl err) :
  exists r',
    handle D rootPath options onDirectory rq r = Return tt r'
    /\ status r' = status r /\ headers r' = headers r /\ body r' = body r
    /\ transmissions (log r') = transmissions (log r)
    /\ next_calls (log r')
       = next_calls (log r) ++ [if fallthrough options then None else Some err].
Proof.
  rewrite handle_get_or_head by done.
  rewrite (serve_path_missing D rootPath options onDirectory rq _ r err Hstat).
  eexists. split; [reflexivity|]. cbn [logged status headers body log].
  unfold next_calls. rewrite transmissions_app, omap_app. cbn.
  by rewrite List.app_nil_r.
Qed.

Lemma serveStatic_missing_file_witness :
  let r := mkResponse 200 ∅ None Fixture.application Fixture.missing_request [] in
  exists r',
    handle Fixture.deps (js "/www") Fixture.strict_options
      (createNotFoundDirectoryListener Fixture.deps) Fixture.missing_request r
    = Return tt r'
    /\ transmissions (log r') = []
    /\ next_calls (log r') = [Some (Fixture.notFound (js "/www/missing.txt"))].
Proof.
  intros r.
  destruct (serveStatic_missing_file Fixture.deps (js "/www") Fixture.strict_options
              (createNotFoundDirectoryListener Fixture.deps) Fixture.missing_request r
              (Fixture.notFound (js "/www/missing.txt")) eq_refl eq_refl)
    as (r' & Hrun & _ & _ & _ & Ht & Hn).
  exists r'. repeat split; assumption.
Defined.

(** X21: a directory is not answered, but passed on, when [redirect] is
    off or when the resolved path already ends in a slash: the handler
    calls [next] once, with the error of [createError(404)] unless
    [fallthrough] is set, and transmits nothing. *)
Theorem serveStatic_directory_passed_on (D : Deps) (root : jstring)
    (options : Options) (handler : Request -> Method unit) (rq : Request)
    (r : Response) (info : FileInfo)
    (Hplain : startsWith root (js "file:") = false)
    (Hhandler : serveStatic D root options = inr handler)
    (Hmethod : eqb (method rq) (js "GET") || eqb (method rq) (js "HEAD") = true)
    (Hstat : stat D (join D root (relative_path rq)) = inr info)
    (Hdir : isDirectory info = true)
    (Hplace : redirect options = false
              \/ endsWith (join D root (relative_path rq)) (js "/") = true) :
  exists r',
    handler rq r = Return tt r'
    /\ status r' = status r /\ headers r' = headers r /\ body r' = body r
    /\ transmissions (log r') = transmissions (log r)
    /\ next_calls (log r')
       = next_calls (log r)
           ++ [if fallthrough options then None else Some (createError D 404)].
Proof.
  unfold serveStatic in Hhandler. rewrite Hplain in Hhandler.
  assert (Hh : handler
               = handle D root options
                   (if redirect options then createRedirectDirectoryListener D
                    else createNotFoundDirectoryListener D)).
  { destruct (before options); try discriminate Hhandler;
      by injection Hhandler as <-. }
  subst handler. rewrite handle_get_or_head by done.
  unfold serve_path. rewrite Hstat, Hdir. run.
  set (full := join D root (relative_path rq)) in *.
  assert (Hlisten :
            (if redirect options then createRedirectDirectoryListener D
             else createNotFoundDirectoryListener D)
              None rq (negb (fallthrough options)) full (logged [EvStat full] r)
            = Return tt
                (logged [EvStat full;
                         EvNext (if fallthrough options then None
                                 else Some (createError D 404))] r)).
  { assert (Hnext : (if negb (fallthrough options)
                     then next (Some (createError D 404)) else next None)
                      (logged [EvStat full] r)
                    = Return tt
                        (logged [EvStat full;
                                 EvNext (if fallthrough options then None
                                         else Some (createError D 404))] r)).
    { unfold logged, next.
      destruct (fallthrough options); cbn [negb]; run;
        by rewrite <- List.app_assoc. }
    destruct Hplace as [Hoff|Hslash].
    - rewrite Hoff. exact Hnext.
    - destruct (redirect options); [|exact Hnext].
      unfold createRedirectDirectoryListener. rewrite Hslash. exact Hnext. }
  unfold logged in Hlisten at 1. rewrite Hlisten.
  eexists. split; [reflexivity|]. cbn [logged status headers body log].
  unfold next_calls. rewrite transmissions_app, omap_app. cbn.
  by rewrite List.app_nil_r.
Qed.

Lemma serveStatic_directory_passed_on_witness :
  match serveStatic Fixture.deps (js "/www") Fixture.strict_options with
  | inr handler =>
      exists r',
        handler Fixture.request Fixture.response = Return tt r'
        /\ transmissions (log r') = []
        /\ next_calls (log r') = [Some (Fixture.createError 404)]
  | inl _ => False
  end.
Proof.
  destruct (serveStatic Fixture.deps (js "/www") Fixture.strict_options)
    as [e|handler] eqn:Hh; [discriminate Hh|].
  destruct (serveStatic_directory_passed_on Fixture.deps (js "/www")
              Fixture.strict_options handler Fixture.request Fixture.response
              (mkFileInfo true None 0) eq_refl Hh eq_refl eq_refl eq_refl
              (or_introl eq_refl))
    as (r' & Hrun & _ & _ & _ & Ht & Hn).
  exists r'. repeat split; assumption.
Defined.

Lemma serveStatic_handler (D : Deps) (root : jstring) (options : Options)
    (handler : Request -> Method unit) :
  serveStatic D root options = inr handler ->
  exists rootPath,
    handler
    = handle D rootPath options
        (if redirect options then createRedirectDirectoryListener D
         else createNotFoundDirectoryListener D).
Proof.
  unfold serveStatic. intros H.
  destruct (before options); try discriminate H;
    destruct (if startsWith root (js "file:") then fromFileUrl D root else inr root)
      as [e|rootPath]; try discriminate H;
    injection H as <-; by exists rootPath.
Qed.

(** X22: without redirect and without [before] hook, the handler of
    [serveStatic] never throws, and on every request it does exactly one
    of two things: it transmits a response once and does not call [next],
    or it calls [next] once and transmits nothing. *)
Theorem serveStatic_answers_or_passes_on (D : Deps) (root : jstring)
    (options : Options) (handler : Request -> Method unit) (rq : Request)
    (r : Response)
    (Hredirect : redirect options = false)
    (Hbefore : before options = BeforeAbsent)
    (Hhandler : serveStatic D root options = inr handler) :
  exists r',
    handler rq r = Return tt r'
    /\ ((exists t, transmissions (log r') = transmissions (log r) ++ [t]
                  /\ next_calls (log r') = next_calls (log r))
        \/ (exists err, transmissions (log r') = transmissions (log r)
                       /\ next_calls (log r') = next_calls (log r) ++ [err])).
Proof.
  destruct (serveStatic_handler D root options handler Hhandler) as (rootPath & ->).
  rewrite Hredirect.
  assert (Hpass : forall calls err,
            transmissions calls = [] -> next_calls calls = [] ->
            exists r',
              Return tt (logged (calls ++ [EvNext err]) r) = Return tt r'
              /\ ((exists t, transmissions (log r') = transmissions (log r) ++ [t]
                            /\ next_calls (log r') = next_calls (log r))
                  \/ (exists e, transmissions (log r') = transmissions (log r)
                               /\ next_calls (log r') = next_calls (log r) ++ [e]))).
  { intros calls err Ht Hn. eexists. split; [reflexivity|]. right. exists err.
    cbn [logged log]. unfold next_calls in *.
    rewrite !transmissions_app, !omap_app, Ht, Hn. cbn.
    by rewrite !List.app_nil_r. }
  destruct (eqb (method rq) (js "GET") || eqb (method rq) (js "HEAD")) eqn:Hm.
  - rewrite handle_get_or_head by done.
    set (full := join D rootPath (relative_path rq)).
    destruct (stat D full) as [err|info] eqn:Hstat.
    { rewrite (serve_path_missing D rootPath options _ rq _ r err Hstat).
      by apply (Hpass [EvStat full]). }
    unfold serve_path. fold full. rewrite Hstat, Hbefore. run.
    fold (logged [EvStat full] r).
    destruct (isDirectory info).
    { unfold createNotFoundDirectoryListener, next.
      destruct (negb (fallthrough options)); run; unfold logged; run;
        rewrite <- List.app_assoc; by apply (Hpass [EvStat full]). }
    destruct (sendFile D full (logged [EvStat full] r)) as [[] r2|e r2] eqn:Hs.
    + exists r2. split; [reflexivity|]. left.
      assert (Hk : ~ In [] (js "last-modified" :: entity_fields)).
      { intros H. vm_compute in H. intuition discriminate. }
      destruct (sendFile_frame D full _ r2 [] Hs Hk) as (_ & Ht & Hn).
      cbn [logged log] in Ht, Hn. unfold next_calls in Hn.
      rewrite transmissions_app in Ht. rewrite omap_app in Hn.
      cbn in Ht, Hn. rewrite List.app_nil_r in Ht, Hn.
      eexists. split; [exact Ht|exact Hn].
    + destruct (sendFile_throw_clean D full _ r2 e Hs)
        as (Hs2 & Hh2 & Hb2 & Ha2 & Hr2 & calls & Hl & Ht & _ & Hn).
      assert (Hr2' : r2 = logged ([EvStat full] ++ calls) r).
      { destruct r2. cbn in *. subst. unfold logged. cbn.
        by rewrite <- List.app_assoc. }
      rewrite Hr2'.
      assert (Hnext : forall err,
                next err (logged ([EvStat full] ++ calls) r)
                = Return tt (logged (([EvStat full] ++ calls) ++ [EvNext err]) r)).
      { intros err. unfold next, logged. run. by rewrite <- List.app_assoc. }
      destruct (negb (fallthrough options)); rewrite Hnext;
        apply Hpass; cbn; try exact Ht; exact Hn.
  - apply orb_false_iff in Hm as (Hget & Hhead).
    destruct (handle_other_methods D rootPath options
                (createNotFoundDirectoryListener D) rq r Hget Hhead)
      as (r' & Hrun & _ & Hcase).
    exists r'. split; [exact Hrun|].
    destruct (fallthrough options).
    + right. exists None. subst r'. cbn [logged log]. unfold next_calls.
      rewrite transmissions_app, omap_app. cbn. by rewrite List.app_nil_r.
    + left. destruct Hcase as (_ & _ & _ & Hn & Ht). eexists. by split.
Qed.

Lemma serveStatic_answers_or_passes_on_witness :
  match serveStatic Fixture.deps (js "/www") Fixture.plain_options with
  | inr handler =>
      exists r',
        handler Fixture.file_request Fixture.response = Return tt r'
        /\ length (transmissions (log r')) = 1%nat
        /\ next_calls (log r') = []
  | inl _ => False
  end.
Proof.
  destruct (serveStatic Fixture.deps (js "/www") Fixture.plain_options)
    as [e|handler] eqn:Hh; [discriminate Hh|].
  destruct (serveStatic_answers_or_passes_on Fixture.deps (js "/www")
              Fixture.plain_options handler Fixture.file_request Fixture.response
              eq_refl eq_refl Hh) as (r' & Hrun & _).
  exists r'. split; [exact Hrun|].
  injection Hh as <-. vm_compute in Hrun. injection Hrun as <-.
  split; vm_compute; reflexivity.
Defined.

(** ** [collapseLeadingSlashes] *)


Lemma endsWith_slash (str : jstring) :
  endsWith str (js "/") = true <-> exists s, str = s ++ [47%N].
Proof.
  unfold endsWith. change (List.rev (js "/")) with [47%N]. split.
  - intros H. destruct (List.rev str) as [|c l] eqn:Hrev; [discriminate|].
    cbn [startsWith] in H. apply andb_true_iff in H as (Hc & _).
    apply N.eqb_eq in Hc. subst c. exists (List.rev l).
    rewrite <- (List.rev_involutive str), Hrev. reflexivity.
  - intros (s & ->). rewrite List.rev_app_distr. cbn [List.rev List.app startsWith].
    rewrite N.eqb_refl. by destruct (List.rev s).
Qed.

(** X24: a string that ends in a slash still ends in a slash after
    [collapseLeadingSlashes], so the location built from a pathname with
    a slash appended keeps that slash. *)
Theorem collapseLeadingSlashes_keeps_trailing_slash (str : jstring)
    (Hslash : endsWith str (js "/") = true) :
  endsWith (collapseLeadingSlashes str) (js "/") = true.
Proof.
  unfold collapseLeadingSlashes.
  destruct (1 <? leading_slashes str)%nat; [|exact Hslash].
  apply endsWith_slash in Hslash as (s & ->). apply endsWith_slash.
  destruct (decide (leading_slashes (s ++ [47%N]) <= length s)%nat) as [Hle|Hgt].
  - exists (js "/" ++ drop (leading_slashes (s ++ [47%N])) s).
    rewrite drop_app_le by done. by rewrite <- List.app_assoc.
  - exists []. rewrite drop_ge; [reflexivity|].
    rewrite length_app. cbn. lia.
Qed.

Lemma collapseLeadingSlashes_keeps_trailing_slash_witness :
  collapseLeadingSlashes (js "//assets/") = js "/assets/"
  /\ endsWith (collapseLeadingSlashes (js "//assets/")) (js "/") = true.
Proof.
  split; [vm_compute; reflexivity|].
  apply (collapseLeadingSlashes_keeps_trailing_slash (js "//assets/")).
  vm_compute. reflexivity.
Defined.

(** ** [format] and [jsonp], further *)

Lemma handler_of_offered (obj : Handlers) (k : jstring) :
  In k (offered_keys obj) -> exists h, handler_of obj k = Some h.
Proof.
  unfold offered_keys, handler_of. intros Hk.
  apply List.filter_In in Hk as (Hk & _).
  apply List.in_map_iff in Hk as ((k' & h) & Hfst & Hin). cbn in Hfst. subst k'.
  destruct (List.find (fun kv => eqb (fst kv) k) obj) as [[k' h']|] eqn:Hfind.
  - by exists h'.
  - exfalso. pose proof (List.find_none _ _ Hfind (k, h) Hin) as Hno.
    cbn in Hno. by rewrite (proj2 (eqb_eq k k) eq_refl) in Hno.
Qed.

(** X25: the key [default] is never offered for negotiation; and when
    [req.accepts] answers one of the offered keys, [format] finds the
    handler stored under it and calls it, after [vary] and with the
    content type of the key: it does not throw of its own. *)
Theorem format_calls_offered_handler (D : Deps) (obj : Handlers) (r : Response)
    (k : jstring)
    (Hkey : negotiated_key (req r) (offered_keys obj) = Some k)
    (Hoffered : In k (offered_keys obj)) :
  ~ In (js "default") (offered_keys obj)
  /\ exists h,
       handler_of obj k = Some h
       /\ format D obj r
          = h (mkResponse (status r)
                 (<[js "content-type" :=
                      default [] (contentType D (normalizeType D k))]>
                    (deps_vary D (headers r) (js "Accept")))
                 (body r) (app r) (req r) (log r ++ [EvHandler k])).
Proof.
  split.
  - unfold offered_keys. intros H. apply List.filter_In in H as (_ & H).
    by rewrite (proj2 (eqb_eq (js "default") (js "default")) eq_refl) in H.
  - destruct (handler_of_offered obj k Hoffered) as (h & Hh).
    exists h. split; [exact Hh|].
    unfold format, vary. run. rewrite Hkey, set_run, Hh.
    change (eqb (toLowerCase (js "Content-Type")) (js "content-type")) with true.
    change (toLowerCase (js "Content-Type")) with (js "content-type").
    reflexivity.
Qed.

Lemma format_calls_offered_handler_witness :
  let fn : Method unit := send Fixture.deps (RString (js "<p>hey</p>")) in
  let obj : Handlers := [(js "default", fn); (js "html", fn)] in
  exists h,
    handler_of obj (js "html") = Some h
    /\ format Fixture.deps obj Fixture.response
       = h (mkResponse 200
              (<[js "content-type" := js "text/html; charset=utf-8"]>
                 (<[js "vary" := js "Accept"]> ∅))
              None Fixture.application Fixture.request [EvHandler (js "html")]).
Proof.
  intros fn obj.
  assert (Hin : In (js "html") (offered_keys obj)).
  { vm_compute. tauto. }
  exact (proj2 (format_calls_offered_handler Fixture.deps obj Fixture.response
                  (js "html") eq_refl Hin)).
Defined.



Lemma restrict_callback_id (callback : jstring) :
  Forall (fun u => callback_safe u = true) callback ->
  restrict_callback callback = callback.
Proof.
  unfold restrict_callback. induction 1 as [|c rest Hc _ IH]; [reflexivity|].
  cbn. by rewrite Hc, IH.
Qed.

(** X27: the two sanitising steps of [jsonp] change nothing that is
    already safe: a callback made of the allowed characters is used as
    given, a JSON text without U+2028 and U+2029 is sent as given, and
    restricting a callback twice is restricting it once. *)
Theorem jsonp_sanitising_is_idempotent (callback text : jstring) :
  restrict_callback (restrict_callback callback) = restrict_callback callback
  /\ escape_separators (escape_separators text) = escape_separators text
  /\ (Forall (fun u => callback_safe u = true) callback ->
      Forall (fun u => u <> 8232%N /\ u <> 8233%N) text ->
      jsonp_script (restrict_callback callback) (escape_separators text)
      = jsonp_script callback text).
Proof.
  split; [apply restrict_callback_id, restrict_callback_safe|].
  split; [apply escape_separators_id, escape_separators_clean|].
  intros Hc Ht. by rewrite restrict_callback_id, escape_separators_id.
Qed.

Lemma jsonp_sanitising_is_idempotent_witness :
  jsonp_script (restrict_callback (js "app.cb[0]")) (escape_separators (js "{}"))
  = js "/**/ typeof app.cb[0] === 'function' && app.cb[0]({});".
Proof.
  rewrite (proj2 (proj2 (jsonp_sanitising_is_idempotent (js "app.cb[0]") (js "{}")))).
  - vm_compute. reflexivity.
  - apply List.Forall_forall. intros u Hu. vm_compute in Hu.
    repeat (destruct Hu as [<-|Hu]; [reflexivity|]). destruct Hu.
  - apply List.Forall_forall. intros u Hu. vm_compute in Hu.
    repeat (destruct Hu as [<-|Hu]; [split; discriminate|]). destruct Hu.
Defined.
